(** * Shallow embedding of perfkitbenchmarker/configs/spec.py

    The module decodes an untyped option map into a spec object.  It has
    three parts, embedded below in the order of the source file:

    - the variant registry ([_SPEC_REGISTRY], [GetSpecClass] and the
      registration done by [BaseSpecMetaClass.__init__]);
    - the decoding pipeline of [BaseSpec] ([__init__], [_InitDecoders],
      [_ApplyFlags], [_GetOptionDecoderConstructions], [_DecodeAndInit]);
    - the nested decoder ([PerCloudConfigSpec], [PerCloudConfigDecoder]).

    Python dictionaries and sets that are only used as maps and sets are
    stdpp's [gmap] and [gset]; the [OrderedDict] of decoders, whose order
    is observable, is an association list; mutable class attributes are
    threaded explicitly as a [class_state]; exceptions are the [Raise]
    case of [result]. *)

From stdpp Require Import gmap strings list sorting.

#[local] Open Scope string_scope.

(** ** Python values *)

(** Values that occur as option values in a parsed configuration
    document, together with decoded spec objects.  A [VDict] is a
    dictionary with string keys (the only dictionaries that can be
    splatted into keyword arguments); a [VSpec] is an instance of a
    [BaseSpec] subclass: the name of its class and its [__dict__]. *)
#[warnings="-register-all"]
Inductive pyval : Type :=
| VNone
| VBool (b : bool)
| VInt (z : Z)
| VStr (s : string)
| VList (l : list pyval)
| VDict (d : gmap string pyval)
| VSpec (cls : string) (attrs : gmap string pyval).

(** The classes [isinstance] is asked about. *)
Inductive pytype : Type :=
| T_NoneType | T_bool | T_int | T_str | T_list | T_dict | T_BaseSpec.

#[global] Instance pytype_eq_dec : EqDecision pytype.
Proof. solve_decision. Defined.

Definition type_of (v : pyval) : pytype :=
  match v with
  | VNone => T_NoneType
  | VBool _ => T_bool
  | VInt _ => T_int
  | VStr _ => T_str
  | VList _ => T_list
  | VDict _ => T_dict
  | VSpec _ _ => T_BaseSpec
  end.

(** [issubclass]: every class is a subclass of itself, and [bool] is a
    subclass of [int]. *)
Definition issubclass (t u : pytype) : bool :=
  bool_decide (t = u) || (bool_decide (t = T_bool) && bool_decide (u = T_int)).

(** [isinstance(value, types)] with a tuple of classes. *)
Definition isinstance (v : pyval) (types : list pytype) : bool :=
  existsb (issubclass (type_of v)) types.

(** Hashable values of class-level discriminator attributes such as
    [CLOUD]: [None], an integer or a string. *)
Inductive hashable : Type :=
| HNone
| HInt (z : Z)
| HStr (s : string).

#[global] Instance hashable_eq_dec : EqDecision hashable.
Proof. solve_decision. Defined.

Definition hashable_to_sum (h : hashable) : unit + (Z + string) :=
  match h with
  | HNone => inl tt
  | HInt z => inr (inl z)
  | HStr s => inr (inr s)
  end.

Definition hashable_of_sum (x : unit + (Z + string)) : hashable :=
  match x with
  | inl _ => HNone
  | inr (inl z) => HInt z
  | inr (inr s) => HStr s
  end.

#[global] Instance hashable_countable : Countable hashable.
Proof.
  apply (inj_countable' hashable_to_sum hashable_of_sum).
  by intros [].
Defined.

(** [flags.FlagValues]: a container of flag values; like every Python
    container it is falsy when it is empty. *)
Definition FlagValues : Type := gmap string pyval.

(** The truth value of an [Optional[FlagValues]] in [if flag_values:]:
    the flags to apply, if there are any. *)
Definition truthy_flags (flag_values : option FlagValues) : option FlagValues :=
  match flag_values with
  | None => None
  | Some fv => if bool_decide (fv = ∅) then None else Some fv
  end.

(** ** Exceptions *)

(** What an [errors.Config.InvalidValue] reports. *)
Inductive invalid_value : Type :=
| NonUniqueAttrs (spec_type : string) (spec_attrs : list string)
    (** 'Subclasses of %s must define unique values for the attrs: %s.' *)
| WrongType (option_full_name : string) (value : pyval) (valid_types : list pytype).
    (** raised by a type-verifying decoder *)

Inductive error : Type :=
| MissingOption (message : string)
| UnrecognizedOption (message : string)
| InvalidValue (what : invalid_value)
| TypeError.
    (** a keyword argument bound twice by a call [f(x, k=v, **d)] *)

Inductive result (A : Type) : Type :=
| Return (a : A)
| Raise (e : error).

Arguments Return {A} a.
Arguments Raise {A} e.

(** ** Sorting *)

(** [sorted] on strings: Python compares strings code point by code
    point, which is the order [String.le] on the encoded string. *)
Definition sorted (l : list string) : list string := merge_sort String.le l.

(** The order [sorted] uses on [(name, value)] tuples whose names are
    pairwise different, or whose equal names carry the same value: the
    values are never compared. *)
Definition item_le {A} (p q : string * A) : Prop := String.le p.1 q.1.

#[global] Instance item_le_dec {A} : RelDecision (@item_le A).
Proof. intros p q. unfold item_le. apply _. Defined.

Definition sorted_items {A} (items : list (string * A)) : list (string * A) :=
  merge_sort item_le items.

(** ** The variant registry *)

(** A class object as the metaclass and the registry see it.
    [class_attrs] holds the attributes [hasattr] and [getattr] find on
    the class, its own and the inherited ones. *)
Record pyclass : Type := {
  __name__ : string;
  SPEC_TYPE : option string;
  SPEC_ATTRS : list string;
  class_attrs : gmap string hashable
}.

(** A key of [_SPEC_REGISTRY]: the tuple [(name, (attr, value), ...)],
    as its head and the list of its pairs. *)
Definition registry_key : Type := string * list (string * hashable).

(** [_SPEC_REGISTRY = {}] *)
Definition _SPEC_REGISTRY : gmap registry_key pyclass := ∅.

(** [GetSpecClass(base_class, **kwargs)].  [kwargs] lists the keyword
    arguments in call order, which is the order of [kwargs.items()]. *)
Definition GetSpecClass (base_class : pyclass) (kwargs : list (string * hashable))
    (registry : gmap registry_key pyclass) : pyclass :=
  let key := (__name__ base_class, sorted_items kwargs) in
  default base_class (registry !! key).

(** ** Option decoders and the per-class state *)

(** Modelled from the spec: [option_decoders.ConfigOptionDecoder] is not
    among the sources.  The spec gives its interface: a decoder
    "validates/transforms one raw value into one typed value; supplies a
    default and a required flag", and [Decode(rawValue,
    componentFullName, overrideSource)] "fails with a decoder-specific
    error on malformed input".  A decoder may construct nested specs,
    which initialises the decoder tables of their classes: [Decode]
    therefore threads a state of type [S], the part of the program state
    the decoders of one class can reach. *)
Record ConfigOptionDecoder (S : Type) : Type := {
  decoder_option : string;
  required : bool;
  default_value : pyval;
  Decode : pyval → string → option FlagValues → S → S * result pyval
}.

Arguments decoder_option {S} _.
Arguments required {S} _.
Arguments default_value {S} _.
Arguments Decode {S} _ _ _ _ _.

(** Modelled from the spec: [ConfigOptionDecoder._GetOptionFullName] is
    not among the sources; the spec describes the derived component name
    as "parent name + "." + option name". *)
Definition _GetOptionFullName {S} (self : ConfigOptionDecoder S)
    (component_full_name : string) : string :=
  component_full_name +:+ "." +:+ decoder_option self.

(** The three class attributes every [BaseSpec] subclass owns; the lock
    [_init_decoders_lock] is left out, since in a sequential execution
    acquiring and releasing it does not change the state.  [_decoders]
    is a [collections.OrderedDict]: an association list in insertion
    order. *)
Record class_state (S : Type) : Type := {
  _decoders : list (string * ConfigOptionDecoder S);
  _required_options : gset string
}.

Arguments _decoders {S} _.
Arguments _required_options {S} _.

(** [d[key] = value] on an [OrderedDict]: a known key keeps its place, a
    new key goes to the end. *)
Fixpoint odict_set {V} (d : list (string * V)) (key : string) (value : V)
    : list (string * V) :=
  match d with
  | [] => [(key, value)]
  | (k, v) :: d' =>
      if decide (k = key) then (k, value) :: d' else (k, v) :: odict_set d' key value
  end.

(** The keys of an [OrderedDict], as the set [difference] sees them. *)
Definition odict_keys {V} (d : list (string * V)) : gset string :=
  list_to_set d.*1.

Module BaseSpecMetaClass.

Definition hasattr (cls : pyclass) (attr : string) : bool :=
  bool_decide (is_Some (class_attrs cls !! attr)).

(** [getattr(cls, attr)]; it is only called under [hasattr], so the
    [AttributeError] of a missing attribute does not arise. *)
Definition getattr (cls : pyclass) (attr : string) : hashable :=
  default HNone (class_attrs cls !! attr).

(** The truth value of [cls.SPEC_TYPE]: [None] and [''] are falsy. *)
Definition truthy_spec_type (spec_type : option string) : bool :=
  match spec_type with
  | None => false
  | Some s => negb (bool_decide (s = ""))
  end.

(** [key = [cls.SPEC_TYPE]; key += sorted([(attr, getattr(cls, attr)) ...])] *)
Definition key (cls : pyclass) : registry_key :=
  (default "" (SPEC_TYPE cls),
   sorted_items ((λ attr, (attr, getattr cls attr)) <$> SPEC_ATTRS cls)).

(** The class state the metaclass installs (lines 58-59). *)
Definition fresh (S : Type) : class_state S :=
  {| _decoders := []; _required_options := ∅ |}.

(** [BaseSpecMetaClass.__init__(cls, name, bases, dct)]: the new state of
    the class, the registry afterwards, and the outcome. *)
Definition __init__ (S : Type) (cls : pyclass)
    (registry : gmap registry_key pyclass)
    : class_state S * gmap registry_key pyclass * result unit :=
  let st := fresh S in
  if forallb (hasattr cls) (SPEC_ATTRS cls) && truthy_spec_type (SPEC_TYPE cls) then
    if bool_decide (is_Some (registry !! key cls)) then
      (st, registry,
       Raise (InvalidValue (NonUniqueAttrs (default "" (SPEC_TYPE cls)) (SPEC_ATTRS cls))))
    else (st, <[key cls := cls]> registry, Return tt)
  else (st, registry, Return tt).

End BaseSpecMetaClass.

(** ** The decoding pipeline *)

(** A [(decoder_class, init_args)] pair returned by
    [_GetOptionDecoderConstructions], as the function that
    [decoder_class(option=option, **init_args)] is of the option name. *)
Definition decoder_construction (S : Type) : Type := string → ConfigOptionDecoder S.

(** A [BaseSpec] subclass: its name and the two class methods derived
    classes override, as they resolve on the class:
    [cls._GetOptionDecoderConstructions()] and [cls._ApplyFlags], which
    returns the dictionary it has modified in place. *)
Record spec_class (S : Type) : Type := {
  spec_name : string;
  cls_GetOptionDecoderConstructions : gmap string (decoder_construction S);
  cls_ApplyFlags : gmap string pyval → FlagValues → gmap string pyval
}.

Arguments spec_name {S} _.
Arguments cls_GetOptionDecoderConstructions {S} _.
Arguments cls_ApplyFlags {S} _ _ _.

Module BaseSpec.

(** The base implementations of the two class methods: no options, and
    flags that change nothing. *)
Definition _GetOptionDecoderConstructions (S : Type)
    : gmap string (decoder_construction S) := ∅.

Definition _ApplyFlags (config_values : gmap string pyval) (flag_values : FlagValues)
    : gmap string pyval := config_values.

(** The class [BaseSpec] itself. *)
Definition class (S : Type) : spec_class S :=
  {| spec_name := "BaseSpec";
     cls_GetOptionDecoderConstructions := _GetOptionDecoderConstructions S;
     cls_ApplyFlags := _ApplyFlags |}.

(** The body of the loop of [_InitDecoders]. *)
Definition init_decoder {S} (st : class_state S)
    (item : string * decoder_construction S) : class_state S :=
  let '(option, decoder_construction) := item in
  let decoder := decoder_construction option in
  {| _decoders := odict_set (_decoders st) option decoder;
     _required_options :=
       if required decoder then {[option]} ∪ _required_options st
       else _required_options st |}.

(** [cls._InitDecoders()] *)
Definition _InitDecoders {S} (cls : spec_class S) (st : class_state S) : class_state S :=
  if bool_decide (_decoders st = []) then
    let constructions := cls_GetOptionDecoderConstructions cls in
    foldl init_decoder st (sorted_items (map_to_list constructions))
  else st.

(** [self._DecodeAndInit(component_full_name, config, decoders,
    flag_values)], on the [__dict__] of [self]. *)
Fixpoint _DecodeAndInit {S} (self : gmap string pyval) (component_full_name : string)
    (config : gmap string pyval) (decoders : list (string * ConfigOptionDecoder S))
    (flag_values : option FlagValues) (s : S) : S * result (gmap string pyval) :=
  match decoders with
  | [] => (s, Return self)
  | (option, decoder) :: decoders' =>
      match config !! option with
      | Some raw =>
          match Decode decoder raw component_full_name flag_values s with
          | (s', Return value) =>
              _DecodeAndInit (<[option := value]> self) component_full_name config
                decoders' flag_values s'
          | (s', Raise e) => (s', Raise e)
          end
      | None =>
          _DecodeAndInit (<[option := default_value decoder]> self) component_full_name
            config decoders' flag_values s
      end
  end.

(** [kwargs] after [if flag_values: self._ApplyFlags(kwargs, flag_values)]. *)
Definition apply_flags {S} (cls : spec_class S) (flag_values : option FlagValues)
    (kwargs : gmap string pyval) : gmap string pyval :=
  match truthy_flags flag_values with
  | Some fv => cls_ApplyFlags cls kwargs fv
  | None => kwargs
  end.

Definition missing_message (component_full_name : string) (missing : gset string) : string :=
  "Required options were missing from " +:+ component_full_name +:+ ": "
    +:+ String.concat ", " (sorted (elements missing)) +:+ ".".

Definition unrecognized_message (component_full_name : string)
    (unrecognized : gset string) : string :=
  "Unrecognized options were found in " +:+ component_full_name +:+ ": "
    +:+ String.concat ", " (sorted (elements unrecognized)) +:+ ".".

(** [cls(component_full_name, flag_values, **kwargs)], that is
    [BaseSpec.__init__] on a new object of class [cls]: the state of the
    class and the state of its decoders afterwards, and the new instance
    or the exception. *)
Definition __init__ {S} (cls : spec_class S) (component_full_name : string)
    (flag_values : option FlagValues) (kwargs : gmap string pyval)
    (st : class_state S) (s : S) : class_state S * S * result pyval :=
  let st := if bool_decide (_decoders st = []) then _InitDecoders cls st else st in
  let kwargs := apply_flags cls flag_values kwargs in
  let missing_options := _required_options st ∖ dom kwargs in
  if bool_decide (missing_options ≠ ∅) then
    (st, s, Raise (MissingOption (missing_message component_full_name missing_options)))
  else
    let unrecognized_options := dom kwargs ∖ odict_keys (_decoders st) in
    if bool_decide (unrecognized_options ≠ ∅) then
      (st, s, Raise (UnrecognizedOption
                       (unrecognized_message component_full_name unrecognized_options)))
    else
      match _DecodeAndInit ∅ component_full_name kwargs (_decoders st) flag_values s with
      | (s', Return attrs) => (st, s', Return (VSpec (spec_name cls) attrs))
      | (s', Raise e) => (st, s', Raise e)
      end.

End BaseSpec.

(** ** The nested decoder *)

Module option_decoders.

(** Modelled from the spec: [option_decoders.TypeVerifier] is not among
    the sources.  The spec calls it "a primitive type-verifying decoder"
    that, set up for mappings, "accepts only mapping values (or null)" and
    otherwise "fails with a type error"; an option is optional when its
    construction supplies a default ("each discriminator name becomes an
    optional mapping-typed attribute" for the construction with
    ['default': None]).  [default] is [None] when the keyword arguments
    hold no ['default']. *)
Definition TypeVerifier {S} (valid_types : list pytype) (default : option pyval)
    (option : string) : ConfigOptionDecoder S :=
  {| decoder_option := option;
     required := if default is None then true else false;
     default_value := from_option id VNone default;
     Decode := λ value component_full_name flag_values s,
       if bool_decide (type_of value = T_NoneType) || isinstance value valid_types
       then (s, Return value)
       else (s, Raise (InvalidValue
                         (WrongType (component_full_name +:+ "." +:+ option)
                                    value valid_types))) |}.

End option_decoders.

Module PerCloudConfigSpec.
Section provider_info.

(** [provider_info.VALID_CLOUDS], which is not among the sources. *)
Variable VALID_CLOUDS : list string.

(** [result = super()._GetOptionDecoderConstructions()], then one type
    verifier for dictionaries, with default [None], per cloud. *)
Definition _GetOptionDecoderConstructions (S : Type)
    : gmap string (decoder_construction S) :=
  foldl (λ result cloud,
           <[cloud := option_decoders.TypeVerifier [T_dict] (Some VNone)]> result)
        (BaseSpec._GetOptionDecoderConstructions S) VALID_CLOUDS.

(** The class [PerCloudConfigSpec]; it inherits [_ApplyFlags]. *)
Definition class (S : Type) : spec_class S :=
  {| spec_name := "PerCloudConfigSpec";
     cls_GetOptionDecoderConstructions := _GetOptionDecoderConstructions S;
     cls_ApplyFlags := BaseSpec._ApplyFlags |}.

End provider_info.
End PerCloudConfigSpec.

Module PerCloudConfigDecoder.
Section provider_info.

Variable VALID_CLOUDS : list string.

(** The parameter names of [BaseSpec.__init__]: a key of [**input_dict]
    with one of these names is bound twice by the call in [Decode]. *)
Definition bound_twice (input_dict : gmap string pyval) : bool :=
  bool_decide (is_Some (input_dict !! "self"))
  || bool_decide (is_Some (input_dict !! "component_full_name"))
  || bool_decide (is_Some (input_dict !! "flag_values")).

(** [self.Decode(value, component_full_name, flag_values)], where [super]
    is the type verifier [__init__] has set up.  The state is that of the
    class [PerCloudConfigSpec], whose own decoders reach no state. *)
Definition Decode (super : ConfigOptionDecoder (class_state unit)) (value : pyval)
    (component_full_name : string) (flag_values : option FlagValues)
    (st : class_state unit) : class_state unit * result pyval :=
  match Decode super value component_full_name flag_values st with
  | (st, Raise e) => (st, Raise e)
  | (st, Return input_dict) =>
      match input_dict with
      | VNone => (st, Return VNone)
      | VDict input_dict =>
          if bound_twice input_dict then (st, Raise TypeError)
          else
            let '(st, _, outcome) :=
              BaseSpec.__init__ (PerCloudConfigSpec.class VALID_CLOUDS unit)
                (_GetOptionFullName super component_full_name) flag_values input_dict
                st tt in
            (st, outcome)
      | _ => (st, Raise TypeError)
      end
  end.

(** [PerCloudConfigDecoder(option=option, **kwargs)]:
    [super().__init__(valid_types=(dict,), **kwargs)], where [default] is
    the ['default'] of [kwargs], if any. *)
Definition __init__ (default : option pyval) (option : string)
    : ConfigOptionDecoder (class_state unit) :=
  let super := option_decoders.TypeVerifier [T_dict] default option in
  Build_ConfigOptionDecoder (class_state unit)
    option (required super) (default_value super) (Decode super).

End provider_info.
End PerCloudConfigDecoder.

(** ** Specification vocabulary *)

(** A variant: a class the metaclass registers, because it defines every
    attribute named in its [SPEC_ATTRS] and a non-empty [SPEC_TYPE]. *)
Definition is_variant (cls : pyclass) : Prop :=
  (∀ attr, attr ∈ SPEC_ATTRS cls → is_Some (class_attrs cls !! attr))
  ∧ ∃ spec_type, SPEC_TYPE cls = Some spec_type ∧ spec_type ≠ "".

(** The states the class attributes of [cls] go through: the one the
    metaclass installs, and those [_InitDecoders] makes of it. *)
Inductive reachable {S} (cls : spec_class S) : class_state S → Prop :=
| reachable_fresh : reachable cls (BaseSpecMetaClass.fresh S)
| reachable_init st :
    reachable cls st → reachable cls (BaseSpec._InitDecoders cls st).

(** The decoder table and the required-options set of a class once they
    are built. *)
Definition built {S} (cls : spec_class S) : class_state S :=
  BaseSpec._InitDecoders cls (BaseSpecMetaClass.fresh S).

(** The table entry [_InitDecoders] makes of an item of the
    constructions: the decoder constructed for the option name. *)
Definition construct {S} (item : string * decoder_construction S)
    : string * ConfigOptionDecoder S :=
  (item.1, item.2 item.1).

(** Step 5 of the pipeline in the words of the spec: for each (option
    name, decoder) of the table, in order, the value is what [Decode]
    returns on the raw value when the option is present, and the
    decoder's default otherwise.  The relation holds when every [Decode]
    called on the way returns a value; it lists the values and relates
    the decoders' state before and after. *)
Inductive decoded_in_order {S} (component_full_name : string)
    (flag_values : option FlagValues) (config : gmap string pyval)
    : list (string * ConfigOptionDecoder S) → S → S → list (string * pyval) → Prop :=
| decoded_nil s :
    decoded_in_order component_full_name flag_values config [] s s []
| decoded_present option decoder decoders raw value s s1 s2 values :
    config !! option = Some raw →
    Decode decoder raw component_full_name flag_values s = (s1, Return value) →
    decoded_in_order component_full_name flag_values config decoders s1 s2 values →
    decoded_in_order component_full_name flag_values config
      ((option, decoder) :: decoders) s s2 ((option, value) :: values)
| decoded_absent option decoder decoders s s2 values :
    config !! option = None →
    decoded_in_order component_full_name flag_values config decoders s s2 values →
    decoded_in_order component_full_name flag_values config
      ((option, decoder) :: decoders) s s2 ((option, default_value decoder) :: values).

(** The discriminator pairs of a class, in the order of its
    [SPEC_ATTRS]: the list [BaseSpecMetaClass.__init__] sorts. *)
Definition attr_items (cls : pyclass) : list (string * hashable) :=
  (λ attr, (attr, BaseSpecMetaClass.getattr cls attr)) <$> SPEC_ATTRS cls.

(** The registries a program goes through: the empty one, and the one
    left by the definition of one more class, whether the class is
    registered, is not a variant, or is refused. *)
Inductive registered : gmap registry_key pyclass → Prop :=
| registered_empty : registered _SPEC_REGISTRY
| registered_class cls registry :
    registered registry →
    registered (BaseSpecMetaClass.__init__ unit cls registry).1.2.

(** ** Example classes *)

Module Examples.

Definition BaseVmSpec : pyclass :=
  {| __name__ := "BaseVmSpec"; SPEC_TYPE := Some "BaseVmSpec";
     SPEC_ATTRS := ["CLOUD"]; class_attrs := {["CLOUD" := HNone]} |}.

Definition GceVmSpec : pyclass :=
  {| __name__ := "GceVmSpec"; SPEC_TYPE := Some "BaseVmSpec";
     SPEC_ATTRS := ["CLOUD"]; class_attrs := {["CLOUD" := HStr "GCP"]} |}.

Definition OtherGceVmSpec : pyclass :=
  {| __name__ := "OtherGceVmSpec"; SPEC_TYPE := Some "BaseVmSpec";
     SPEC_ATTRS := ["CLOUD"]; class_attrs := {["CLOUD" := HStr "GCP"]} |}.

Definition AwsVmSpec : pyclass :=
  {| __name__ := "AwsVmSpec"; SPEC_TYPE := Some "BaseVmSpec";
     SPEC_ATTRS := ["CLOUD"]; class_attrs := {["CLOUD" := HStr "AWS"]} |}.

(** The schema of the spec's end-to-end example: a required integer
    option "size" and an optional string option "tier" with default
    "standard". *)
Definition DiskSpec : spec_class unit :=
  {| spec_name := "DiskSpec";
     cls_GetOptionDecoderConstructions :=
       <["tier" := option_decoders.TypeVerifier [T_str] (Some (VStr "standard"))]>
         (<["size" := option_decoders.TypeVerifier [T_int] None]>
            (BaseSpec._GetOptionDecoderConstructions unit));
     cls_ApplyFlags := BaseSpec._ApplyFlags |}.

Definition VALID_CLOUDS : list string := ["GCP"; "AWS"].

Definition vm_spec : ConfigOptionDecoder (class_state unit) :=
  PerCloudConfigDecoder.__init__ VALID_CLOUDS (Some VNone) "vm_spec".

(** A group of machines with one option, the per-cloud dictionary
    "vm_spec". *)
Definition VmGroupSpec : spec_class (class_state unit) :=
  {| spec_name := "VmGroupSpec";
     cls_GetOptionDecoderConstructions :=
       <["vm_spec" := PerCloudConfigDecoder.__init__ VALID_CLOUDS (Some VNone)]>
         (BaseSpec._GetOptionDecoderConstructions (class_state unit));
     cls_ApplyFlags := BaseSpec._ApplyFlags |}.

(** A class without [SPEC_TYPE], as [BaseSpec] itself is. *)
Definition PlainSpec : pyclass :=
  {| __name__ := "PlainSpec"; SPEC_TYPE := None;
     SPEC_ATTRS := ["CLOUD"]; class_attrs := {["CLOUD" := HStr "GCP"]} |}.

(** Two classes with the same two discriminator values, listed in
    different orders. *)
Definition GceDebianVmSpec : pyclass :=
  {| __name__ := "GceDebianVmSpec"; SPEC_TYPE := Some "BaseVmSpec";
     SPEC_ATTRS := ["CLOUD"; "OS_TYPE"];
     class_attrs := <["OS_TYPE" := HStr "debian"]> {["CLOUD" := HStr "GCP"]} |}.

Definition DebianGceVmSpec : pyclass :=
  {| __name__ := "DebianGceVmSpec"; SPEC_TYPE := Some "BaseVmSpec";
     SPEC_ATTRS := ["OS_TYPE"; "CLOUD"];
     class_attrs := <["OS_TYPE" := HStr "debian"]> {["CLOUD" := HStr "GCP"]} |}.

(** A spec without required options. *)
Definition TierSpec : spec_class unit :=
  {| spec_name := "TierSpec";
     cls_GetOptionDecoderConstructions :=
       <["tier" := option_decoders.TypeVerifier [T_str] (Some (VStr "standard"))]>
         (BaseSpec._GetOptionDecoderConstructions unit);
     cls_ApplyFlags := BaseSpec._ApplyFlags |}.

End Examples.

(** * Properties *)

(** ** The examples of the spec, evaluated *)

Example sorted_items_by_name :
  sorted_items [("OS_TYPE", HStr "debian"); ("CLOUD", HStr "GCP")]
  = [("CLOUD", HStr "GCP"); ("OS_TYPE", HStr "debian")].
Proof. vm_compute. reflexivity. Qed.

Example lookup_registered_variant :
  GetSpecClass Examples.BaseVmSpec [("CLOUD", HStr "GCP")]
    (BaseSpecMetaClass.__init__ unit Examples.GceVmSpec _SPEC_REGISTRY).1.2
  = Examples.GceVmSpec.
Proof. vm_compute. reflexivity. Qed.

Example DiskSpec_without_size :
  (BaseSpec.__init__ Examples.DiskSpec "disk" None ∅ (BaseSpecMetaClass.fresh unit) tt).2
  = Raise (MissingOption "Required options were missing from disk: size.").
Proof. vm_compute. reflexivity. Qed.

Example DiskSpec_with_bogus :
  (BaseSpec.__init__ Examples.DiskSpec "disk" None
     (<["bogus" := VInt 1]> (<["size" := VInt 10]> ∅)) (BaseSpecMetaClass.fresh unit) tt).2
  = Raise (UnrecognizedOption "Unrecognized options were found in disk: bogus.").
Proof. vm_compute. reflexivity. Qed.

Example DiskSpec_missing_first :
  (BaseSpec.__init__ Examples.DiskSpec "disk" None
     (<["zone" := VInt 1]> (<["bogus" := VInt 1]> ∅)) (BaseSpecMetaClass.fresh unit) tt).2
  = Raise (MissingOption "Required options were missing from disk: size.").
Proof. vm_compute. reflexivity. Qed.

Example vm_spec_of_None :
  Decode Examples.vm_spec VNone "group" None (BaseSpecMetaClass.fresh unit)
  = (BaseSpecMetaClass.fresh unit, Return VNone).
Proof. reflexivity. Qed.

Example vm_spec_bound_twice :
  (Decode Examples.vm_spec (VDict (<["flag_values" := VDict ∅]> ∅)) "group" None
     (BaseSpecMetaClass.fresh unit)).2
  = Raise TypeError.
Proof. vm_compute. reflexivity. Qed.

(** ** Sorting *)

#[global] Instance item_le_total {A} : Total (@item_le A).
Proof. intros p q. unfold item_le. apply (total String.le). Qed.

#[global] Instance item_le_trans {A} : Transitive (@item_le A).
Proof. intros p q r. unfold item_le. apply (transitivity (R:=String.le)). Qed.

Lemma sorted_items_Permutation {A} (items : list (string * A)) :
  sorted_items items ≡ₚ items.
Proof. apply merge_sort_Permutation. Qed.

Lemma sorted_items_StronglySorted {A} (items : list (string * A)) :
  StronglySorted item_le (sorted_items items).
Proof. apply StronglySorted_merge_sort; apply _. Qed.

Lemma sorted_Permutation (l : list string) : sorted l ≡ₚ l.
Proof. apply merge_sort_Permutation. Qed.

Lemma sorted_StronglySorted (l : list string) : StronglySorted String.le (sorted l).
Proof. apply StronglySorted_merge_sort; apply _. Qed.

Lemma elem_of_sorted (l : list string) x : x ∈ sorted l ↔ x ∈ l.
Proof. by rewrite sorted_Permutation. Qed.

Lemma NoDup_sorted (l : list string) : NoDup l → NoDup (sorted l).
Proof. by rewrite sorted_Permutation. Qed.

(** In a list of items with pairwise different names, a name has one
    value. *)
Lemma NoDup_fst_functional {A} (items : list (string * A)) k v1 v2 :
  NoDup items.*1 → (k, v1) ∈ items → (k, v2) ∈ items → v1 = v2.
Proof.
  induction items as [|[k' v'] items IH]; simpl; intros Hnd H1 H2.
  - by apply elem_of_nil in H1.
  - apply NoDup_cons in Hnd as [Hk' Hnd].
    apply elem_of_cons in H1 as [H1|H1]; apply elem_of_cons in H2 as [H2|H2].
    + congruence.
    + injection H1 as -> ->. destruct Hk'.
      apply list_elem_of_fmap. by exists (k', v2).
    + injection H2 as -> ->. destruct Hk'.
      apply list_elem_of_fmap. by exists (k', v1).
    + by apply IH.
Qed.

(** Two orders of the same items with pairwise different names sort to
    the same list. *)
Lemma sorted_items_unique {A} (items1 items2 : list (string * A)) :
  NoDup items1.*1 → items1 ≡ₚ items2 → sorted_items items1 = sorted_items items2.
Proof.
  intros Hnd Hperm.
  apply (StronglySorted_unique_strong item_le).
  - intros [k1 v1] [k2 v2] H1 H2 Hle1 Hle2. unfold item_le in *; simpl in *.
    assert (k1 = k2) as -> by (by apply (anti_symm String.le)).
    f_equal. apply (NoDup_fst_functional items1 k2); [done| |].
    + by rewrite <-(sorted_items_Permutation items1).
    + by rewrite Hperm, <-(sorted_items_Permutation items2).
  - apply sorted_items_StronglySorted.
  - apply sorted_items_StronglySorted.
  - by rewrite !sorted_items_Permutation.
Qed.

(** ** The variant registry *)

Lemma registers_variant (cls : pyclass) :
  is_variant cls →
  forallb (BaseSpecMetaClass.hasattr cls) (SPEC_ATTRS cls)
    && BaseSpecMetaClass.truthy_spec_type (SPEC_TYPE cls) = true.
Proof.
  intros [Hattrs (spec_type & Htype & Hne)].
  apply andb_true_iff; split.
  - apply forallb_forall. intros attr Hin%list_elem_of_In.
    unfold BaseSpecMetaClass.hasattr. apply bool_decide_eq_true. by apply Hattrs.
  - rewrite Htype. simpl. apply negb_true_iff. by apply bool_decide_eq_false.
Qed.

Lemma register_fresh_key (S : Type) (cls : pyclass) (registry : gmap registry_key pyclass) :
  is_variant cls → registry !! BaseSpecMetaClass.key cls = None →
  BaseSpecMetaClass.__init__ S cls registry
  = (BaseSpecMetaClass.fresh S, <[BaseSpecMetaClass.key cls := cls]> registry, Return tt).
Proof.
  intros Hv Hnone. unfold BaseSpecMetaClass.__init__.
  rewrite (registers_variant cls Hv), Hnone.
  rewrite bool_decide_eq_false_2; [done|]. by intros [? ?].
Qed.

Lemma register_known_key (S : Type) (cls : pyclass) (registry : gmap registry_key pyclass) :
  is_variant cls → is_Some (registry !! BaseSpecMetaClass.key cls) →
  BaseSpecMetaClass.__init__ S cls registry
  = (BaseSpecMetaClass.fresh S, registry,
     Raise (InvalidValue (NonUniqueAttrs (default "" (SPEC_TYPE cls)) (SPEC_ATTRS cls)))).
Proof.
  intros Hv Hsome. unfold BaseSpecMetaClass.__init__.
  rewrite (registers_variant cls Hv). by rewrite bool_decide_eq_true_2.
Qed.

(** Classes with the same [SPEC_ATTRS] that differ in the value of one of
    them have different keys. *)
Lemma key_values_differ (cls1 cls2 : pyclass) attr :
  SPEC_ATTRS cls1 = SPEC_ATTRS cls2 → attr ∈ SPEC_ATTRS cls1 →
  BaseSpecMetaClass.getattr cls1 attr ≠ BaseSpecMetaClass.getattr cls2 attr →
  BaseSpecMetaClass.key cls1 ≠ BaseSpecMetaClass.key cls2.
Proof.
  intros Hattrs Hin Hne Hkey. unfold BaseSpecMetaClass.key in Hkey.
  injection Hkey as _ Hsorted.
  assert ((attr, BaseSpecMetaClass.getattr cls1 attr)
          ∈ (λ attr, (attr, BaseSpecMetaClass.getattr cls2 attr)) <$> SPEC_ATTRS cls2)
    as Hmem.
  { rewrite <-sorted_items_Permutation, <-Hsorted, sorted_items_Permutation.
    apply list_elem_of_fmap. by exists attr. }
  apply list_elem_of_fmap in Hmem as (attr' & Heq & _).
  injection Heq as <- Heq. by destruct Hne.
Qed.

(** C4: registering a variant under a key that is already taken raises
    the duplicate-variant error ([InvalidValue], naming the spec type and
    its attributes) and does not overwrite the entry, while a variant with
    a different key registers next to the first one. *)
Theorem register_duplicate_fails (S : Type) (registry : gmap registry_key pyclass)
    (first second : pyclass) :
  is_variant first → is_variant second →
  registry !! BaseSpecMetaClass.key first = None →
  let registry1 := <[BaseSpecMetaClass.key first := first]> registry in
  BaseSpecMetaClass.__init__ S first registry
  = (BaseSpecMetaClass.fresh S, registry1, Return tt)
  ∧ (BaseSpecMetaClass.key second = BaseSpecMetaClass.key first →
     BaseSpecMetaClass.__init__ S second registry1
     = (BaseSpecMetaClass.fresh S, registry1,
        Raise (InvalidValue
                 (NonUniqueAttrs (default "" (SPEC_TYPE second)) (SPEC_ATTRS second))))
     ∧ registry1 !! BaseSpecMetaClass.key second = Some first)
  ∧ (BaseSpecMetaClass.key second ≠ BaseSpecMetaClass.key first →
     registry !! BaseSpecMetaClass.key second = None →
     let registry2 := <[BaseSpecMetaClass.key second := second]> registry1 in
     BaseSpecMetaClass.__init__ S second registry1
     = (BaseSpecMetaClass.fresh S, registry2, Return tt)
     ∧ registry2 !! BaseSpecMetaClass.key first = Some first
     ∧ registry2 !! BaseSpecMetaClass.key second = Some second).
Proof.
  intros Hfirst Hsecond Hnone registry1. split; [|split].
  - by apply register_fresh_key.
  - intros Hkey. split.
    + apply register_known_key; [done|].
      rewrite Hkey. unfold registry1. rewrite lookup_insert_eq. by eexists.
    + rewrite Hkey. unfold registry1. by rewrite lookup_insert_eq.
  - intros Hkey Hnone2 registry2. split; [|split].
    + apply register_fresh_key; [done|].
      unfold registry1. by rewrite lookup_insert_ne.
    + unfold registry2, registry1. rewrite lookup_insert_ne by done.
      by rewrite lookup_insert_eq.
    + unfold registry2. by rewrite lookup_insert_eq.
Qed.

(** C5: [GetSpecClass] does not depend on the order of its keyword
    arguments: two orders of the same discriminator pairs (keyword names
    are pairwise different) give the same class. *)
Theorem GetSpecClass_order_independent (base_class : pyclass)
    (kwargs1 kwargs2 : list (string * hashable))
    (registry : gmap registry_key pyclass) :
  NoDup kwargs1.*1 → kwargs1 ≡ₚ kwargs2 →
  GetSpecClass base_class kwargs1 registry = GetSpecClass base_class kwargs2 registry.
Proof.
  intros Hnd Hperm. unfold GetSpecClass.
  by rewrite (sorted_items_unique kwargs1 kwargs2 Hnd Hperm).
Qed.

(** X2: registration and lookup agree: a variant registered under the name of
    [base_class] is found from its discriminator pairs in any order. *)
Lemma GetSpecClass_registered (S : Type) (base_class cls : pyclass)
    (kwargs : list (string * hashable)) (registry : gmap registry_key pyclass) :
  is_variant cls → SPEC_TYPE cls = Some (__name__ base_class) →
  registry !! BaseSpecMetaClass.key cls = None →
  NoDup kwargs.*1 →
  kwargs ≡ₚ (λ attr, (attr, BaseSpecMetaClass.getattr cls attr)) <$> SPEC_ATTRS cls →
  GetSpecClass base_class kwargs (BaseSpecMetaClass.__init__ S cls registry).1.2 = cls.
Proof.
  intros Hv Htype Hnone Hnd Hperm.
  rewrite (register_fresh_key S cls registry Hv Hnone). simpl.
  unfold GetSpecClass. rewrite (sorted_items_unique _ _ Hnd Hperm).
  unfold BaseSpecMetaClass.key. rewrite Htype. simpl.
  by rewrite lookup_insert_eq.
Qed.

(** C8: when no variant is registered under the composite key, the lookup
    returns the base class it was given. *)
Theorem GetSpecClass_fallback (base_class : pyclass)
    (kwargs : list (string * hashable)) (registry : gmap registry_key pyclass) :
  registry !! (__name__ base_class, sorted_items kwargs) = None →
  GetSpecClass base_class kwargs registry = base_class.
Proof. intros Hnone. unfold GetSpecClass. by rewrite Hnone. Qed.

(** C10: a registration that fails on a taken key leaves the registry as
    it was: the class registered before is still the one under the key,
    and the new class is under no key it was not under before. *)
Theorem register_failure_atomic (S : Type) (cls previous : pyclass)
    (registry : gmap registry_key pyclass) :
  is_variant cls → registry !! BaseSpecMetaClass.key cls = Some previous →
  ∃ e registry',
    BaseSpecMetaClass.__init__ S cls registry = (BaseSpecMetaClass.fresh S, registry', Raise e)
    ∧ registry' = registry
    ∧ registry' !! BaseSpecMetaClass.key cls = Some previous.
Proof.
  intros Hv Hsome. eexists _, registry. split; [|done].
  apply register_known_key; [done|]. by eexists.
Qed.

Ltac example_variant :=
  split;
  [ intros attr Hin; repeat (apply elem_of_cons in Hin as [->|Hin]; [by eexists|]);
    by apply elem_of_nil in Hin
  | by eexists ].

(** C4 at the empty registry: after [GceVmSpec], a second class for the
    same cloud is refused and a class for another cloud is accepted. *)
Lemma register_duplicate_fails_witness :
  (BaseSpecMetaClass.__init__ unit Examples.OtherGceVmSpec
     (<[BaseSpecMetaClass.key Examples.GceVmSpec := Examples.GceVmSpec]> _SPEC_REGISTRY)).2
  = Raise (InvalidValue (NonUniqueAttrs "BaseVmSpec" ["CLOUD"]))
  ∧ (BaseSpecMetaClass.__init__ unit Examples.AwsVmSpec
       (<[BaseSpecMetaClass.key Examples.GceVmSpec := Examples.GceVmSpec]> _SPEC_REGISTRY)).2
    = Return tt.
Proof.
  split.
  - destruct (register_duplicate_fails unit _SPEC_REGISTRY
                Examples.GceVmSpec Examples.OtherGceVmSpec) as (_ & Hsame & _);
      [example_variant | example_variant | reflexivity |].
    destruct Hsame as [-> _]; [vm_compute; reflexivity | reflexivity].
  - destruct (register_duplicate_fails unit _SPEC_REGISTRY
                Examples.GceVmSpec Examples.AwsVmSpec) as (_ & _ & Hother);
      [example_variant | example_variant | reflexivity |].
    destruct Hother as [-> _]; [vm_compute; discriminate | reflexivity | reflexivity].
Defined.

Lemma GetSpecClass_order_independent_witness :
  GetSpecClass Examples.BaseVmSpec [("CLOUD", HStr "GCP"); ("OS_TYPE", HStr "debian")]
    (<[BaseSpecMetaClass.key Examples.GceVmSpec := Examples.GceVmSpec]> _SPEC_REGISTRY)
  = GetSpecClass Examples.BaseVmSpec [("OS_TYPE", HStr "debian"); ("CLOUD", HStr "GCP")]
      (<[BaseSpecMetaClass.key Examples.GceVmSpec := Examples.GceVmSpec]> _SPEC_REGISTRY).
Proof.
  apply (GetSpecClass_order_independent Examples.BaseVmSpec
           [("CLOUD", HStr "GCP"); ("OS_TYPE", HStr "debian")]
           [("OS_TYPE", HStr "debian"); ("CLOUD", HStr "GCP")]).
  - compute_done.
  - apply Permutation_swap.
Defined.

Lemma GetSpecClass_fallback_witness :
  GetSpecClass Examples.BaseVmSpec [("CLOUD", HStr "Azure")]
    (<[BaseSpecMetaClass.key Examples.GceVmSpec := Examples.GceVmSpec]> _SPEC_REGISTRY)
  = Examples.BaseVmSpec.
Proof.
  apply (GetSpecClass_fallback Examples.BaseVmSpec [("CLOUD", HStr "Azure")]).
  vm_compute. reflexivity.
Defined.

Lemma register_failure_atomic_witness :
  ∃ e registry',
    BaseSpecMetaClass.__init__ unit Examples.OtherGceVmSpec
      (<[BaseSpecMetaClass.key Examples.GceVmSpec := Examples.GceVmSpec]> _SPEC_REGISTRY)
    = (BaseSpecMetaClass.fresh unit, registry', Raise e)
    ∧ registry'
      = <[BaseSpecMetaClass.key Examples.GceVmSpec := Examples.GceVmSpec]> _SPEC_REGISTRY
    ∧ registry' !! BaseSpecMetaClass.key Examples.OtherGceVmSpec = Some Examples.GceVmSpec.
Proof.
  apply (register_failure_atomic unit Examples.OtherGceVmSpec Examples.GceVmSpec).
  - example_variant.
  - vm_compute. reflexivity.
Defined.

(** ** The decoder table *)

Section decoder_table.
Context {S : Type}.
Implicit Types (cls : spec_class S) (st : class_state S).
Implicit Types (items : list (string * decoder_construction S)).

Lemma odict_set_fresh {V} (d : list (string * V)) key value :
  key ∉ d.*1 → odict_set d key value = (d ++ [(key, value)])%list.
Proof.
  induction d as [|[k v] d IH]; simpl; intros Hkey; [done|].
  apply not_elem_of_cons in Hkey as [Hne Hkey].
  rewrite decide_False by done. by rewrite IH.
Qed.

Lemma foldl_init_decoder_decoders items st :
  NoDup ((_decoders st).*1 ++ items.*1)%list →
  _decoders (foldl BaseSpec.init_decoder st items)
  = (_decoders st ++ (construct <$> items))%list.
Proof.
  revert st. induction items as [|[option c] items IH]; intros st Hnd; simpl.
  - by rewrite app_nil_r.
  - assert (option ∉ (_decoders st).*1) as Hfresh.
    { apply NoDup_app in Hnd as (_ & Hdisj & _). intros Hin.
      apply (Hdisj _ Hin). left. }
    rewrite IH; simpl; rewrite odict_set_fresh by done.
    + by rewrite <-app_assoc.
    + by rewrite fmap_app, <-app_assoc.
Qed.

Lemma foldl_init_decoder_required items st option :
  option ∈ _required_options (foldl BaseSpec.init_decoder st items)
  ↔ option ∈ _required_options st
    ∨ ∃ c, (option, c) ∈ items ∧ required (c option) = true.
Proof.
  revert st. induction items as [|[o c] items IH]; intros st; simpl.
  - split; [by left|]. intros [?|(c & Hin & _)]; [done|]. by apply elem_of_nil in Hin.
  - rewrite IH. simpl. split.
    + intros [Hin|(c' & Hin & Hreq)].
      * destruct (required (c o)) eqn:Hreq.
        -- apply elem_of_union in Hin as [->%elem_of_singleton|Hin]; [|by left].
           right. exists c. split; [left|done].
        -- by left.
      * right. exists c'. split; [by right|done].
    + intros [Hin|(c' & Hin & Hreq)].
      * left. destruct (required (c o)); [|done]. apply elem_of_union. by right.
      * apply elem_of_cons in Hin as [Heq|Hin].
        -- injection Heq as -> ->. left. rewrite Hreq.
           apply elem_of_union. left. by apply elem_of_singleton.
        -- right. by exists c'.
Qed.

Lemma built_decoders cls :
  _decoders (built cls)
  = construct <$> sorted_items (map_to_list (cls_GetOptionDecoderConstructions cls)).
Proof.
  unfold built, BaseSpec._InitDecoders. simpl.
  rewrite foldl_init_decoder_decoders; [done|]. simpl.
  rewrite sorted_items_Permutation. apply NoDup_fst_map_to_list.
Qed.

Lemma built_decoders_keys cls :
  (_decoders (built cls)).*1
  = (sorted_items (map_to_list (cls_GetOptionDecoderConstructions cls))).*1.
Proof.
  rewrite built_decoders, <-list_fmap_compose. by apply list_fmap_ext.
Qed.

Lemma elem_of_built_decoders cls option decoder :
  (option, decoder) ∈ _decoders (built cls)
  ↔ ∃ c, cls_GetOptionDecoderConstructions cls !! option = Some c ∧ decoder = c option.
Proof.
  rewrite built_decoders, list_elem_of_fmap. split.
  - intros ([o c] & Heq & Hin). injection Heq as -> ->.
    rewrite sorted_items_Permutation in Hin. apply elem_of_map_to_list in Hin.
    by exists c.
  - intros (c & Hc & ->). exists (option, c). split; [done|].
    rewrite sorted_items_Permutation. by apply elem_of_map_to_list.
Qed.

Lemma elem_of_built_keys cls option :
  option ∈ (_decoders (built cls)).*1
  ↔ option ∈ dom (cls_GetOptionDecoderConstructions cls).
Proof.
  rewrite elem_of_dom, list_elem_of_fmap. split.
  - intros ([o decoder] & -> & Hin). apply elem_of_built_decoders in Hin as (c & Hc & _).
    by exists c.
  - intros [c Hc]. exists (option, c option). split; [done|].
    apply elem_of_built_decoders. by exists c.
Qed.

Lemma NoDup_built_keys cls : NoDup (_decoders (built cls)).*1.
Proof.
  rewrite built_decoders_keys, sorted_items_Permutation. apply NoDup_fst_map_to_list.
Qed.

Lemma StronglySorted_built_keys cls : StronglySorted String.le (_decoders (built cls)).*1.
Proof.
  rewrite built_decoders_keys.
  apply (StronglySorted_fmap _ item_le); [done|]. apply sorted_items_StronglySorted.
Qed.

Lemma elem_of_built_required cls option :
  option ∈ _required_options (built cls)
  ↔ ∃ c, cls_GetOptionDecoderConstructions cls !! option = Some c
         ∧ required (c option) = true.
Proof.
  unfold built, BaseSpec._InitDecoders. simpl.
  rewrite foldl_init_decoder_required. simpl. split.
  - intros [Hin|(c & Hin & Hreq)]; [by apply not_elem_of_empty in Hin|].
    rewrite sorted_items_Permutation in Hin. apply elem_of_map_to_list in Hin.
    by exists c.
  - intros (c & Hc & Hreq). right. exists c. split; [|done].
    rewrite sorted_items_Permutation. by apply elem_of_map_to_list.
Qed.

Lemma odict_keys_built cls :
  odict_keys (_decoders (built cls)) = dom (cls_GetOptionDecoderConstructions cls).
Proof.
  apply set_eq. intros option. unfold odict_keys.
  rewrite elem_of_list_to_set. apply elem_of_built_keys.
Qed.

(** A table that is not empty is left alone. *)
Lemma _InitDecoders_nonempty cls st :
  _decoders st ≠ [] → BaseSpec._InitDecoders cls st = st.
Proof.
  intros Hne. unfold BaseSpec._InitDecoders. by rewrite bool_decide_eq_false_2.
Qed.

(** Building twice is building once: when the first build leaves the
    table empty, nothing was declared and the second build adds nothing. *)
Lemma _InitDecoders_built cls : BaseSpec._InitDecoders cls (built cls) = built cls.
Proof.
  destruct (decide (_decoders (built cls) = [])) as [Hnil|Hne].
  - unfold BaseSpec._InitDecoders at 1. rewrite bool_decide_eq_true_2 by done.
    rewrite built_decoders in Hnil. apply fmap_nil_inv in Hnil. by rewrite Hnil.
  - by apply _InitDecoders_nonempty.
Qed.

Lemma reachable_cases cls st :
  reachable cls st → st = BaseSpecMetaClass.fresh S ∨ st = built cls.
Proof.
  induction 1 as [|st _ [->| ->]]; [by left|by right|right].
  apply _InitDecoders_built.
Qed.

(** The table [__init__] works with, from any reachable state. *)
Lemma ensure_built cls st :
  reachable cls st →
  (if bool_decide (_decoders st = []) then BaseSpec._InitDecoders cls st else st)
  = built cls.
Proof.
  intros [->| ->]%reachable_cases.
  - by rewrite bool_decide_eq_true_2.
  - case_bool_decide; [apply _InitDecoders_built|done].
Qed.

End decoder_table.

(** ** The decoding pipeline *)

Section pipeline.
Context {S : Type}.
Implicit Types (cls : spec_class S) (st : class_state S) (s : S).
Implicit Types (decoders : list (string * ConfigOptionDecoder S)).
Implicit Types (config kwargs self : gmap string pyval).
Implicit Types (values : list (string * pyval)).

Lemma decoded_in_order_keys name flags config decoders s s' values :
  decoded_in_order name flags config decoders s s' values → values.*1 = decoders.*1.
Proof. induction 1; csimpl; by f_equal. Qed.

(** What the relation says option by option. *)
Lemma decoded_in_order_value name flags config decoders s s' values option decoder :
  decoded_in_order name flags config decoders s s' values →
  NoDup decoders.*1 → (option, decoder) ∈ decoders →
  match config !! option with
  | Some raw =>
      ∃ s1 s2 value, Decode decoder raw name flags s1 = (s2, Return value)
                     ∧ (option, value) ∈ values
  | None => (option, default_value decoder) ∈ values
  end.
Proof.
  induction 1 as [|o d decoders raw value s s1 s2 values Hraw Hdec _ IH
                  |o d decoders s s2 values Hraw _ IH]; simpl; intros Hnd Hin.
  - by apply elem_of_nil in Hin.
  - apply NoDup_cons in Hnd as [Ho Hnd]. apply elem_of_cons in Hin as [Heq|Hin].
    + injection Heq as -> ->. rewrite Hraw. exists s, s1, value. split; [done|left].
    + specialize (IH Hnd Hin). destruct (config !! option).
      * destruct IH as (s1' & s2' & value' & ? & ?). exists s1', s2', value'.
        split; [done|by right].
      * by right.
  - apply NoDup_cons in Hnd as [Ho Hnd]. apply elem_of_cons in Hin as [Heq|Hin].
    + injection Heq as -> ->. rewrite Hraw. left.
    + specialize (IH Hnd Hin). destruct (config !! option).
      * destruct IH as (s1' & s2' & value' & ? & ?). exists s1', s2', value'.
        split; [done|by right].
      * by right.
Qed.

Lemma foldl_setattr self values :
  NoDup values.*1 → (∀ option, option ∈ values.*1 → self !! option = None) →
  foldl (λ self item, <[item.1 := item.2]> self) self values
  = list_to_map values ∪ self.
Proof.
  revert self. induction values as [|[option value] values IH]; simpl; intros self Hnd Hself.
  - by rewrite (left_id_L ∅ (∪)).
  - apply NoDup_cons in Hnd as [Hoption Hnd]. rewrite IH; [|done|].
    + rewrite <-insert_union_l. symmetry. apply insert_union_r.
      by apply not_elem_of_list_to_map_1.
    + intros o Ho. rewrite lookup_insert_ne by (by intros ->).
      apply Hself. by right.
Qed.

(** The loop of [_DecodeAndInit] computes what the relation describes. *)
Lemma _DecodeAndInit_decoded self name flags config decoders s s' values :
  decoded_in_order name flags config decoders s s' values →
  BaseSpec._DecodeAndInit self name config decoders flags s
  = (s', Return (foldl (λ self item, <[item.1 := item.2]> self) self values)).
Proof.
  intros Hrel. revert self.
  induction Hrel as [|o d decoders raw value s s1 s2 values Hraw Hdec _ IH
                     |o d decoders s s2 values Hraw _ IH]; intros self; simpl.
  - done.
  - by rewrite Hraw, Hdec, IH.
  - by rewrite Hraw, IH.
Qed.

Lemma difference_nonempty (X Y : gset string) x : x ∈ X → x ∉ Y → X ∖ Y ≠ ∅.
Proof.
  intros Hx Hy Hempty. apply (not_elem_of_empty (C:=gset string) x).
  rewrite <-Hempty. by apply elem_of_difference.
Qed.

(** The three ways through [__init__], from any reachable state. *)
Lemma __init___missing cls name flags kwargs st s :
  reachable cls st →
  _required_options (built cls) ∖ dom (BaseSpec.apply_flags cls flags kwargs) ≠ ∅ →
  BaseSpec.__init__ cls name flags kwargs st s
  = (built cls, s,
     Raise (MissingOption
              (BaseSpec.missing_message name
                 (_required_options (built cls)
                    ∖ dom (BaseSpec.apply_flags cls flags kwargs))))).
Proof.
  intros Hst Hmissing. unfold BaseSpec.__init__.
  rewrite (ensure_built cls st Hst). by rewrite bool_decide_eq_true_2.
Qed.

Lemma __init___unrecognized cls name flags kwargs st s :
  reachable cls st →
  _required_options (built cls) ∖ dom (BaseSpec.apply_flags cls flags kwargs) = ∅ →
  dom (BaseSpec.apply_flags cls flags kwargs) ∖ odict_keys (_decoders (built cls)) ≠ ∅ →
  BaseSpec.__init__ cls name flags kwargs st s
  = (built cls, s,
     Raise (UnrecognizedOption
              (BaseSpec.unrecognized_message name
                 (dom (BaseSpec.apply_flags cls flags kwargs)
                    ∖ odict_keys (_decoders (built cls)))))).
Proof.
  intros Hst Hmissing Hunrecognized. unfold BaseSpec.__init__.
  rewrite (ensure_built cls st Hst).
  rewrite bool_decide_eq_false_2 by (by intros ?).
  by rewrite bool_decide_eq_true_2.
Qed.

Lemma __init___decoded cls name flags kwargs st s s' values :
  reachable cls st →
  _required_options (built cls) ⊆ dom (BaseSpec.apply_flags cls flags kwargs) →
  dom (BaseSpec.apply_flags cls flags kwargs)
    ⊆ dom (cls_GetOptionDecoderConstructions cls) →
  decoded_in_order name flags (BaseSpec.apply_flags cls flags kwargs)
    (_decoders (built cls)) s s' values →
  BaseSpec.__init__ cls name flags kwargs st s
  = (built cls, s', Return (VSpec (spec_name cls) (list_to_map values))).
Proof.
  intros Hst Hrequired Hknown Hrel. unfold BaseSpec.__init__.
  rewrite (ensure_built cls st Hst).
  rewrite bool_decide_eq_false_2
    by (intros Hne; by apply Hne, subseteq_empty_difference_L).
  rewrite bool_decide_eq_false_2
    by (rewrite odict_keys_built; intros Hne; by apply Hne, subseteq_empty_difference_L).
  rewrite (_DecodeAndInit_decoded _ _ _ _ _ _ _ _ Hrel).
  rewrite foldl_setattr.
  - by rewrite (right_id_L ∅ (∪)).
  - rewrite (decoded_in_order_keys _ _ _ _ _ _ _ Hrel). apply NoDup_built_keys.
  - intros. apply lookup_empty.
Qed.

(** The names in an error message: sorted, without repetition, and
    exactly the members of the set. *)
Lemma sorted_elements (X : gset string) :
  StronglySorted String.le (sorted (elements X))
  ∧ NoDup (sorted (elements X))
  ∧ ∀ option, option ∈ sorted (elements X) ↔ option ∈ X.
Proof.
  split; [apply sorted_StronglySorted|split].
  - apply NoDup_sorted, NoDup_elements.
  - intros option. by rewrite elem_of_sorted, elem_of_elements.
Qed.

End pipeline.

(** ** Construction of a spec *)

(** C6: the first build of the decoder table holds exactly the declared
    option names, in sorted order and each once, with the decoder
    constructed for the name; the required-options set holds the declared
    options whose decoder is required; and [_InitDecoders] on a table that
    is not empty changes neither, so that building again is building
    once. *)
Theorem InitDecoders_builds_once (S : Type) (cls : spec_class S) :
  let table := _decoders (built cls) in
  let declared := cls_GetOptionDecoderConstructions cls in
  StronglySorted String.le table.*1
  ∧ NoDup table.*1
  ∧ (∀ option, option ∈ table.*1 ↔ option ∈ dom declared)
  ∧ (∀ option decoder,
       (option, decoder) ∈ table ↔ ∃ c, declared !! option = Some c ∧ decoder = c option)
  ∧ (∀ option,
       option ∈ _required_options (built cls)
       ↔ ∃ c, declared !! option = Some c ∧ required (c option) = true)
  ∧ (∀ st, _decoders st ≠ [] → BaseSpec._InitDecoders cls st = st)
  ∧ BaseSpec._InitDecoders cls (built cls) = built cls.
Proof.
  intros table declared.
  split; [|split; [|split; [|split; [|split; [|split]]]]].
  - apply StronglySorted_built_keys.
  - apply NoDup_built_keys.
  - apply elem_of_built_keys.
  - apply elem_of_built_decoders.
  - apply elem_of_built_required.
  - apply _InitDecoders_nonempty.
  - apply _InitDecoders_built.
Qed.

Lemma InitDecoders_builds_once_witness :
  (_decoders (built Examples.DiskSpec)).*1 = ["size"; "tier"]
  ∧ BaseSpec._InitDecoders Examples.DiskSpec (built Examples.DiskSpec)
    = built Examples.DiskSpec.
Proof.
  split; [vm_compute; reflexivity|].
  destruct (InitDecoders_builds_once unit Examples.DiskSpec)
    as (_ & _ & _ & _ & _ & Hnonempty & _).
  apply Hnonempty. vm_compute. discriminate.
Defined.

(** C2: when the option map (after the flags have been applied) lacks a
    required option, construction raises [MissingOption]; the message
    names the component and exactly the missing required options, sorted,
    and no instance is returned. *)
Theorem missing_option_raised (S : Type) (cls : spec_class S) (name : string)
    (flags : option FlagValues) (kwargs : gmap string pyval)
    (st : class_state S) (s : S) :
  reachable cls st →
  let config := BaseSpec.apply_flags cls flags kwargs in
  (∃ option, option ∈ _required_options (built cls) ∧ option ∉ dom config) →
  ∃ names,
    BaseSpec.__init__ cls name flags kwargs st s
    = (built cls, s,
       Raise (MissingOption
                ("Required options were missing from " +:+ name +:+ ": "
                   +:+ String.concat ", " names +:+ ".")))
    ∧ StronglySorted String.le names
    ∧ NoDup names
    ∧ ∀ option,
        option ∈ names ↔ option ∈ _required_options (built cls) ∧ option ∉ dom config.
Proof.
  intros Hst config (option & Hreq & Hmissing).
  exists (sorted (elements (_required_options (built cls) ∖ dom config))).
  destruct (sorted_elements (_required_options (built cls) ∖ dom config))
    as (Hsorted & Hnd & Hnames).
  split; [|split; [done|split; [done|]]].
  - apply __init___missing; [done|]. by apply (difference_nonempty _ _ option).
  - intros o. by rewrite Hnames, elem_of_difference.
Qed.

Lemma missing_option_raised_witness :
  ∃ names,
    BaseSpec.__init__ Examples.DiskSpec "disk" None ∅ (BaseSpecMetaClass.fresh unit) tt
    = (built Examples.DiskSpec, tt,
       Raise (MissingOption
                ("Required options were missing from " +:+ "disk" +:+ ": "
                   +:+ String.concat ", " names +:+ ".")))
    ∧ StronglySorted String.le names
    ∧ NoDup names
    ∧ ∀ option,
        option ∈ names
        ↔ option ∈ _required_options (built Examples.DiskSpec)
          ∧ option ∉ dom (BaseSpec.apply_flags Examples.DiskSpec None ∅).
Proof.
  apply (missing_option_raised unit Examples.DiskSpec "disk" None ∅).
  - constructor.
  - exists "size". split; compute_done.
Defined.

(** C3: when the option map (after the flags have been applied) holds
    every required option and a key that is not in the decoder table,
    construction raises [UnrecognizedOption]; the message names the
    component and exactly the keys outside the table, sorted, and no
    instance is returned. *)
Theorem unrecognized_option_raised (S : Type) (cls : spec_class S) (name : string)
    (flags : option FlagValues) (kwargs : gmap string pyval)
    (st : class_state S) (s : S) :
  reachable cls st →
  let config := BaseSpec.apply_flags cls flags kwargs in
  (∀ option, option ∈ _required_options (built cls) → option ∈ dom config) →
  (∃ option, option ∈ dom config ∧ option ∉ (_decoders (built cls)).*1) →
  ∃ names,
    BaseSpec.__init__ cls name flags kwargs st s
    = (built cls, s,
       Raise (UnrecognizedOption
                ("Unrecognized options were found in " +:+ name +:+ ": "
                   +:+ String.concat ", " names +:+ ".")))
    ∧ StronglySorted String.le names
    ∧ NoDup names
    ∧ ∀ option,
        option ∈ names ↔ option ∈ dom config ∧ option ∉ (_decoders (built cls)).*1.
Proof.
  intros Hst config Hreq (option & Hin & Hunknown).
  exists (sorted (elements (dom config ∖ odict_keys (_decoders (built cls))))).
  destruct (sorted_elements (dom config ∖ odict_keys (_decoders (built cls))))
    as (Hsorted & Hnd & Hnames).
  split; [|split; [done|split; [done|]]].
  - apply __init___unrecognized; [done| |]; fold config.
    + by apply subseteq_empty_difference_L.
    + apply (difference_nonempty _ _ option); [done|].
      unfold odict_keys. by rewrite elem_of_list_to_set.
  - intros o. rewrite Hnames. unfold odict_keys.
    by rewrite elem_of_difference, elem_of_list_to_set.
Qed.

Lemma unrecognized_option_raised_witness :
  ∃ names,
    BaseSpec.__init__ Examples.DiskSpec "disk" None
      (<["bogus" := VInt 1]> (<["size" := VInt 10]> ∅)) (BaseSpecMetaClass.fresh unit) tt
    = (built Examples.DiskSpec, tt,
       Raise (UnrecognizedOption
                ("Unrecognized options were found in " +:+ "disk" +:+ ": "
                   +:+ String.concat ", " names +:+ ".")))
    ∧ StronglySorted String.le names
    ∧ NoDup names
    ∧ ∀ option,
        option ∈ names
        ↔ option ∈ dom (BaseSpec.apply_flags Examples.DiskSpec None
                           (<["bogus" := VInt 1]> (<["size" := VInt 10]> ∅)))
          ∧ option ∉ (_decoders (built Examples.DiskSpec)).*1.
Proof.
  apply (unrecognized_option_raised unit Examples.DiskSpec "disk" None
           (<["bogus" := VInt 1]> (<["size" := VInt 10]> ∅))).
  - constructor.
  - intros option Hreq. simpl.
    apply elem_of_built_required in Hreq as (c & Hc & Hrequired).
    destruct (decide (option = "size")) as [->|Hne]; [compute_done|].
    exfalso. unfold Examples.DiskSpec, BaseSpec._GetOptionDecoderConstructions in Hc.
    simpl in Hc. destruct (decide (option = "tier")) as [->|Hne'].
    + rewrite lookup_insert_eq in Hc. injection Hc as <-. discriminate.
    + rewrite !lookup_insert_ne in Hc by done. by rewrite lookup_empty in Hc.
  - exists "bogus". split; compute_done.
Defined.

(** C9: when the option map (after the flags have been applied) both
    lacks a required option and holds a key outside the decoder table,
    the exception is [MissingOption], not [UnrecognizedOption]. *)
Theorem missing_before_unrecognized (S : Type) (cls : spec_class S) (name : string)
    (flags : option FlagValues) (kwargs : gmap string pyval)
    (st : class_state S) (s : S) :
  reachable cls st →
  let config := BaseSpec.apply_flags cls flags kwargs in
  (∃ option, option ∈ _required_options (built cls) ∧ option ∉ dom config) →
  (∃ option, option ∈ dom config ∧ option ∉ (_decoders (built cls)).*1) →
  (∃ message,
     (BaseSpec.__init__ cls name flags kwargs st s).2 = Raise (MissingOption message))
  ∧ ∀ message,
      (BaseSpec.__init__ cls name flags kwargs st s).2 ≠ Raise (UnrecognizedOption message).
Proof.
  intros Hst config (option & Hreq & Hmissing) _.
  rewrite __init___missing by (done || by apply (difference_nonempty _ _ option)).
  simpl. split; [by eexists|]. by intros message.
Qed.

Lemma missing_before_unrecognized_witness :
  (∃ message,
     (BaseSpec.__init__ Examples.DiskSpec "disk" None (<["bogus" := VInt 1]> ∅)
        (BaseSpecMetaClass.fresh unit) tt).2 = Raise (MissingOption message))
  ∧ ∀ message,
      (BaseSpec.__init__ Examples.DiskSpec "disk" None (<["bogus" := VInt 1]> ∅)
         (BaseSpecMetaClass.fresh unit) tt).2 ≠ Raise (UnrecognizedOption message).
Proof.
  apply (missing_before_unrecognized unit Examples.DiskSpec "disk" None
           (<["bogus" := VInt 1]> ∅)).
  - constructor.
  - exists "size". split; compute_done.
  - exists "bogus". split; compute_done.
Defined.

(** C1, as the code has it: when the option map (after the flags have
    been applied) holds every required option and no key outside the
    decoder table, and every decoder called on the way returns a value,
    construction returns an instance with exactly one attribute per entry
    of the table; the options are processed in the order of the table,
    which is sorted by option name; the attribute of an option that is
    present is the value its decoder returns for the raw value, and the
    attribute of an option that is absent is the decoder's default. *)
Theorem construct_decodes_every_option (S : Type) (cls : spec_class S) (name : string)
    (flags : option FlagValues) (kwargs : gmap string pyval)
    (st : class_state S) (s s' : S) (values : list (string * pyval)) :
  reachable cls st →
  let config := BaseSpec.apply_flags cls flags kwargs in
  let table := _decoders (built cls) in
  let attrs : gmap string pyval := list_to_map values in
  (∀ option, option ∈ _required_options (built cls) → option ∈ dom config) →
  (∀ option, option ∈ dom config → option ∈ table.*1) →
  decoded_in_order name flags config table s s' values →
  BaseSpec.__init__ cls name flags kwargs st s
  = (built cls, s', Return (VSpec (spec_name cls) attrs))
  ∧ dom attrs = odict_keys table
  ∧ values.*1 = table.*1
  ∧ StronglySorted String.le table.*1
  ∧ ∀ option decoder,
      (option, decoder) ∈ table →
      match config !! option with
      | Some raw =>
          ∃ s1 s2 value, Decode decoder raw name flags s1 = (s2, Return value)
                         ∧ attrs !! option = Some value
      | None => attrs !! option = Some (default_value decoder)
      end.
Proof.
  intros Hst config table attrs Hrequired Hknown Hrel.
  pose proof (decoded_in_order_keys _ _ _ _ _ _ _ Hrel) as Hkeys.
  assert (NoDup values.*1) as Hnd by (rewrite Hkeys; apply NoDup_built_keys).
  split; [|split; [|split; [done|split]]].
  - apply __init___decoded; [done| | |done]; fold config.
    + intros option. apply Hrequired.
    + intros option Hin. by apply elem_of_built_keys, Hknown.
  - unfold attrs, odict_keys. by rewrite dom_list_to_map_L, Hkeys.
  - apply StronglySorted_built_keys.
  - intros option decoder Hin.
    pose proof (decoded_in_order_value _ _ _ _ _ _ _ option decoder Hrel
                  (NoDup_built_keys cls) Hin) as Hvalue.
    destruct (config !! option) as [raw|].
    + destruct Hvalue as (s1 & s2 & value & Hdecode & Hvalue).
      exists s1, s2, value. split; [done|]. by apply elem_of_list_to_map_1.
    + by apply elem_of_list_to_map_1.
Qed.

Lemma built_DiskSpec :
  _decoders (built Examples.DiskSpec)
  = [("size", option_decoders.TypeVerifier [T_int] None "size");
     ("tier", option_decoders.TypeVerifier [T_str] (Some (VStr "standard")) "tier")].
Proof. vm_compute. reflexivity. Qed.

(** The end-to-end example of the spec: [{"size": 10}] gives size 10 and
    tier "standard". *)
Lemma construct_decodes_every_option_witness :
  BaseSpec.__init__ Examples.DiskSpec "disk" None (<["size" := VInt 10]> ∅)
    (BaseSpecMetaClass.fresh unit) tt
  = (built Examples.DiskSpec, tt,
     Return (VSpec "DiskSpec"
               (list_to_map [("size", VInt 10); ("tier", VStr "standard")]))).
Proof.
  apply (construct_decodes_every_option unit Examples.DiskSpec "disk" None
           (<["size" := VInt 10]> ∅) (BaseSpecMetaClass.fresh unit) tt tt
           [("size", VInt 10); ("tier", VStr "standard")]).
  - constructor.
  - intros option Hreq. simpl.
    apply elem_of_built_required in Hreq as (c & Hc & Hrequired).
    destruct (decide (option = "size")) as [->|Hne]; [compute_done|].
    exfalso. unfold Examples.DiskSpec, BaseSpec._GetOptionDecoderConstructions in Hc.
    simpl in Hc. destruct (decide (option = "tier")) as [->|Hne'].
    + rewrite lookup_insert_eq in Hc. injection Hc as <-. discriminate.
    + rewrite !lookup_insert_ne in Hc by done. by rewrite lookup_empty in Hc.
  - intros option Hin. rewrite built_DiskSpec.
    unfold BaseSpec.apply_flags in Hin. simpl in Hin.
    apply elem_of_dom in Hin as [v Hv].
    destruct (decide (option = "size")) as [->|Hne]; [left|].
    rewrite lookup_insert_ne, lookup_empty in Hv by done. discriminate.
  - rewrite built_DiskSpec. simpl.
    eapply decoded_present; [reflexivity|reflexivity|].
    eapply (decoded_absent _ _ _ "tier"
              (option_decoders.TypeVerifier [T_str] (Some (VStr "standard")) "tier"));
      [reflexivity|]. constructor.
Defined.

(** C1 as stated fails where a decoder rejects a value: each of the two
    option maps below holds every required option of its class and no key
    outside the decoder table, and construction raises. *)
Lemma construct_raises_on_rejected_value :
  (_required_options (built Examples.DiskSpec) ⊆ dom (<["size" := VStr "big"]> ∅ : gmap string pyval)
   ∧ dom (<["size" := VStr "big"]> ∅ : gmap string pyval)
       ⊆ odict_keys (_decoders (built Examples.DiskSpec))
   ∧ (BaseSpec.__init__ Examples.DiskSpec "disk" None (<["size" := VStr "big"]> ∅)
        (BaseSpecMetaClass.fresh unit) tt).2
     = Raise (InvalidValue (WrongType "disk.size" (VStr "big") [T_int])))
  ∧ (_required_options (built Examples.VmGroupSpec)
       ⊆ dom (<["vm_spec" := VDict (<["bogus" := VDict ∅]> ∅)]> ∅ : gmap string pyval)
     ∧ dom (<["vm_spec" := VDict (<["bogus" := VDict ∅]> ∅)]> ∅ : gmap string pyval)
         ⊆ odict_keys (_decoders (built Examples.VmGroupSpec))
     ∧ (BaseSpec.__init__ Examples.VmGroupSpec "group" None
          (<["vm_spec" := VDict (<["bogus" := VDict ∅]> ∅)]> ∅)
          (BaseSpecMetaClass.fresh (class_state unit)) (BaseSpecMetaClass.fresh unit)).2
       = Raise (UnrecognizedOption
                  "Unrecognized options were found in group.vm_spec: bogus.")).
Proof.
  repeat split; try compute_done; vm_compute; reflexivity.
Qed.

(** ** The nested decoder *)

Section per_cloud.
Variable VALID_CLOUDS : list string.
Implicit Types (st : class_state unit) (input_dict : gmap string pyval).

Lemma lookup_foldl_insert {V} (keys : list string) (m : gmap string V) (v : V) k :
  foldl (λ result key, <[key := v]> result) m keys !! k
  = if decide (k ∈ keys) then Some v else m !! k.
Proof.
  revert m. induction keys as [|key keys IH]; intros m; cbn [foldl].
  - rewrite decide_False; [done|]. apply not_elem_of_nil.
  - rewrite IH. destruct (decide (k ∈ keys)) as [Hin|Hout].
    + rewrite decide_True; [done|by right].
    + destruct (decide (k = key)) as [->|Hne].
      * rewrite lookup_insert_eq, decide_True; [done|left].
      * rewrite lookup_insert_ne by done. rewrite decide_False; [done|].
        by intros [?|?]%elem_of_cons.
Qed.

Lemma PerCloudConfigSpec_declares cloud :
  cls_GetOptionDecoderConstructions (PerCloudConfigSpec.class VALID_CLOUDS unit) !! cloud
  = if decide (cloud ∈ VALID_CLOUDS)
    then Some (option_decoders.TypeVerifier [T_dict] (Some VNone))
    else None.
Proof.
  simpl. unfold PerCloudConfigSpec._GetOptionDecoderConstructions.
  rewrite lookup_foldl_insert. by case_decide.
Qed.

Lemma PerCloudConfigSpec_keys cloud :
  cloud ∈ (_decoders (built (PerCloudConfigSpec.class VALID_CLOUDS unit))).*1
  ↔ cloud ∈ VALID_CLOUDS.
Proof.
  rewrite elem_of_built_keys, elem_of_dom, PerCloudConfigSpec_declares.
  case_decide; split; [done|by eexists|by intros [? ?]|done].
Qed.

Lemma PerCloudConfigSpec_table cloud decoder :
  (cloud, decoder) ∈ _decoders (built (PerCloudConfigSpec.class VALID_CLOUDS unit)) →
  decoder = option_decoders.TypeVerifier [T_dict] (Some VNone) cloud.
Proof.
  intros (c & Hc & ->)%elem_of_built_decoders.
  rewrite PerCloudConfigSpec_declares in Hc. case_decide; congruence.
Qed.

Lemma PerCloudConfigSpec_required :
  _required_options (built (PerCloudConfigSpec.class VALID_CLOUDS unit)) = ∅.
Proof.
  apply set_eq. intros cloud. rewrite elem_of_built_required. split.
  - intros (c & Hc & Hrequired). rewrite PerCloudConfigSpec_declares in Hc.
    case_decide; [|done]. injection Hc as <-. discriminate.
  - by intros ?%not_elem_of_empty.
Qed.

(** [PerCloudConfigSpec] inherits the [_ApplyFlags] that changes nothing. *)
Lemma PerCloudConfigSpec_apply_flags flags input_dict :
  BaseSpec.apply_flags (PerCloudConfigSpec.class VALID_CLOUDS unit) flags input_dict
  = input_dict.
Proof. unfold BaseSpec.apply_flags. by destruct (truthy_flags flags). Qed.

(** Type verifiers for dictionaries with default [None] pass the
    dictionaries of [config] through. *)
Lemma type_verifiers_decoded name flags (config : gmap string pyval)
    (decoders : list (string * ConfigOptionDecoder unit)) :
  (∀ cloud decoder, (cloud, decoder) ∈ decoders →
     decoder = option_decoders.TypeVerifier [T_dict] (Some VNone) cloud) →
  (∀ cloud value, config !! cloud = Some value → ∃ d, value = VDict d) →
  decoded_in_order name flags config decoders tt tt
    ((λ item, (item.1, default VNone (config !! item.1))) <$> decoders).
Proof.
  intros Hdecoders Hdicts. induction decoders as [|[cloud decoder] decoders IH]; csimpl.
  - constructor.
  - assert (decoder = option_decoders.TypeVerifier [T_dict] (Some VNone) cloud) as ->
      by (apply Hdecoders; left).
    assert (decoded_in_order name flags config decoders tt tt
              ((λ item, (item.1, default VNone (config !! item.1))) <$> decoders)) as IH'.
    { apply IH. intros c d Hin. apply Hdecoders. by right. }
    destruct (config !! cloud) as [value|] eqn:Hvalue; simpl.
    + destruct (Hdicts _ _ Hvalue) as [d ->].
      by eapply decoded_present.
    + by apply (decoded_absent _ _ _ cloud
                  (option_decoders.TypeVerifier [T_dict] (Some VNone) cloud)).
Qed.

(** The nested construction on a dictionary of dictionaries whose keys
    are valid clouds. *)
Lemma PerCloudConfigSpec_constructed name flags input_dict st :
  reachable (PerCloudConfigSpec.class VALID_CLOUDS unit) st →
  (∀ cloud, cloud ∈ dom input_dict → cloud ∈ VALID_CLOUDS) →
  (∀ cloud value, input_dict !! cloud = Some value → ∃ d, value = VDict d) →
  ∃ attrs,
    BaseSpec.__init__ (PerCloudConfigSpec.class VALID_CLOUDS unit) name flags input_dict st tt
    = (built (PerCloudConfigSpec.class VALID_CLOUDS unit), tt,
       Return (VSpec "PerCloudConfigSpec" attrs))
    ∧ (∀ cloud, is_Some (attrs !! cloud) ↔ cloud ∈ VALID_CLOUDS)
    ∧ (∀ cloud value, input_dict !! cloud = Some value → attrs !! cloud = Some value)
    ∧ (∀ cloud, cloud ∈ VALID_CLOUDS → input_dict !! cloud = None →
         attrs !! cloud = Some VNone).
Proof.
  intros Hst Hkeys Hdicts.
  set (cls := PerCloudConfigSpec.class VALID_CLOUDS unit) in *.
  set (values := (λ item : string * ConfigOptionDecoder unit,
                    (item.1, default VNone (input_dict !! item.1)))
                 <$> _decoders (built cls)).
  assert (values.*1 = (_decoders (built cls)).*1) as Hfst.
  { unfold values. rewrite <-list_fmap_compose. by apply list_fmap_ext. }
  assert (NoDup values.*1) as Hnd by (rewrite Hfst; apply NoDup_built_keys).
  assert (∀ cloud, cloud ∈ VALID_CLOUDS →
            (list_to_map values : gmap string pyval) !! cloud
            = Some (default VNone (input_dict !! cloud))) as Hattr.
  { intros cloud Hcloud. apply elem_of_list_to_map_1; [done|].
    apply PerCloudConfigSpec_keys in Hcloud.
    apply list_elem_of_fmap in Hcloud as ([c d] & -> & Hin).
    unfold values. apply list_elem_of_fmap. by exists (c, d). }
  exists (list_to_map values). split; [|split; [|split]].
  - apply __init___decoded; [done| | |].
    + unfold cls. rewrite PerCloudConfigSpec_required. apply empty_subseteq.
    + unfold cls. rewrite PerCloudConfigSpec_apply_flags. intros cloud Hcloud.
      apply elem_of_built_keys, PerCloudConfigSpec_keys. by apply Hkeys.
    + unfold cls. rewrite PerCloudConfigSpec_apply_flags.
      apply type_verifiers_decoded; [|done].
      intros cloud decoder. apply PerCloudConfigSpec_table.
  - intros cloud. rewrite <-PerCloudConfigSpec_keys. fold cls. rewrite <-Hfst.
    rewrite <-elem_of_dom, dom_list_to_map_L. by rewrite elem_of_list_to_set.
  - intros cloud value Hvalue. rewrite Hattr; [by rewrite Hvalue|].
    apply Hkeys, elem_of_dom. by eexists.
  - intros cloud Hcloud Hnone. rewrite Hattr by done. by rewrite Hnone.
Qed.

(** [Decode] on a dictionary: the call of the constructor. *)
Lemma PerCloudConfigDecoder_Decode_dict default flags option name input_dict st :
  Decode (PerCloudConfigDecoder.__init__ VALID_CLOUDS default option)
    (VDict input_dict) name flags st
  = if PerCloudConfigDecoder.bound_twice input_dict then (st, Raise TypeError)
    else
      let '(st, _, outcome) :=
        BaseSpec.__init__ (PerCloudConfigSpec.class VALID_CLOUDS unit)
          (name +:+ "." +:+ option) flags input_dict st tt in
      (st, outcome).
Proof. reflexivity. Qed.

End per_cloud.

(** C7, as the code has it: the nested decoder returns [None] on [None];
    on a dictionary whose keys are valid clouds (and no parameter name of
    the constructor) and whose values are dictionaries it returns the
    [PerCloudConfigSpec] constructed under the derived component name,
    with one attribute per valid cloud: the dictionary supplied for the
    cloud, or [None] when there is none; and on a value that is neither a
    dictionary nor [None] it raises the type verifier's [InvalidValue]. *)
Theorem PerCloudConfigDecoder_decodes (VALID_CLOUDS : list string)
    (default : option pyval) (flags : option FlagValues) (option name : string)
    (st : class_state unit) :
  let decoder := PerCloudConfigDecoder.__init__ VALID_CLOUDS default option in
  let cls := PerCloudConfigSpec.class VALID_CLOUDS unit in
  reachable cls st →
  Decode decoder VNone name flags st = (st, Return VNone)
  ∧ (∀ input_dict : gmap string pyval,
       (∀ cloud, cloud ∈ dom input_dict → cloud ∈ VALID_CLOUDS) →
       (∀ cloud value, input_dict !! cloud = Some value → ∃ d, value = VDict d) →
       PerCloudConfigDecoder.bound_twice input_dict = false →
       ∃ attrs : gmap string pyval,
         Decode decoder (VDict input_dict) name flags st
         = (built cls, Return (VSpec "PerCloudConfigSpec" attrs))
         ∧ BaseSpec.__init__ cls (name +:+ "." +:+ option) flags input_dict st tt
           = (built cls, tt, Return (VSpec "PerCloudConfigSpec" attrs))
         ∧ (∀ cloud, is_Some (attrs !! cloud) ↔ cloud ∈ VALID_CLOUDS)
         ∧ (∀ cloud value, input_dict !! cloud = Some value → attrs !! cloud = Some value)
         ∧ (∀ cloud, cloud ∈ VALID_CLOUDS → input_dict !! cloud = None →
              attrs !! cloud = Some VNone))
  ∧ (∀ value, type_of value ≠ T_dict → type_of value ≠ T_NoneType →
       Decode decoder value name flags st
       = (st, Raise (InvalidValue (WrongType (name +:+ "." +:+ option) value [T_dict])))).
Proof.
  intros decoder cls Hst. split; [done|split].
  - intros input_dict Hkeys Hdicts Hbound.
    destruct (PerCloudConfigSpec_constructed VALID_CLOUDS (name +:+ "." +:+ option)
                flags input_dict st Hst Hkeys Hdicts)
      as (attrs & Hinit & Hdom & Hpresent & Habsent).
    exists attrs. split; [|done].
    unfold decoder, cls. rewrite PerCloudConfigDecoder_Decode_dict, Hbound.
    by rewrite Hinit.
  - intros value Hdict Hnone.
    unfold decoder, PerCloudConfigDecoder.__init__, PerCloudConfigDecoder.Decode.
    simpl. rewrite bool_decide_eq_false_2 by done.
    unfold issubclass. rewrite (bool_decide_eq_false_2 (type_of value = T_dict)) by done.
    rewrite (bool_decide_eq_false_2 (T_dict = T_int)) by done.
    by rewrite andb_false_r.
Qed.

(** The example of the spec: [{"GCP": {"k": "v"}}] with "GCP" and "AWS"
    the valid clouds. *)
Lemma PerCloudConfigDecoder_decodes_witness :
  ∃ attrs : gmap string pyval,
    Decode Examples.vm_spec (VDict (<["GCP" := VDict (<["k" := VStr "v"]> ∅)]> ∅))
      "group" None (BaseSpecMetaClass.fresh unit)
    = (built (PerCloudConfigSpec.class Examples.VALID_CLOUDS unit),
       Return (VSpec "PerCloudConfigSpec" attrs))
    ∧ attrs !! "GCP" = Some (VDict (<["k" := VStr "v"]> ∅))
    ∧ attrs !! "AWS" = Some VNone.
Proof.
  destruct (PerCloudConfigDecoder_decodes Examples.VALID_CLOUDS (Some VNone) None
              "vm_spec" "group" (BaseSpecMetaClass.fresh unit)) as (_ & Hdict & _).
  { constructor. }
  destruct (Hdict (<["GCP" := VDict (<["k" := VStr "v"]> ∅)]> ∅))
    as (attrs & Hdecode & _ & _ & Hpresent & Habsent).
  - intros cloud Hin. apply elem_of_dom in Hin as [value Hvalue].
    destruct (decide (cloud = "GCP")) as [->|Hne]; [left|].
    rewrite lookup_insert_ne, lookup_empty in Hvalue by done. discriminate.
  - intros cloud value Hvalue.
    destruct (decide (cloud = "GCP")) as [->|Hne].
    + rewrite lookup_insert_eq in Hvalue. injection Hvalue as <-. by eexists.
    + rewrite lookup_insert_ne, lookup_empty in Hvalue by done. discriminate.
  - vm_compute. reflexivity.
  - exists attrs. split; [exact Hdecode|split].
    + apply Hpresent. apply lookup_insert_eq.
    + apply Habsent; [right; left|]. vm_compute. reflexivity.
Defined.

(** C7 as stated fails on dictionaries the nested construction rejects: a
    key that is not a valid cloud, and a value that is not a dictionary. *)
Lemma PerCloudConfigDecoder_raises_on_dict :
  (Decode Examples.vm_spec (VDict (<["bogus" := VDict ∅]> ∅)) "group" None
     (BaseSpecMetaClass.fresh unit)).2
  = Raise (UnrecognizedOption "Unrecognized options were found in group.vm_spec: bogus.")
  ∧ (Decode Examples.vm_spec (VDict (<["GCP" := VInt 1]> ∅)) "group" None
       (BaseSpecMetaClass.fresh unit)).2
    = Raise (InvalidValue (WrongType "group.vm_spec.GCP" (VInt 1) [T_dict])).
Proof. split; vm_compute; reflexivity. Qed.

(** * Further properties of the registry *)

Lemma registers_variant_iff (cls : pyclass) :
  forallb (BaseSpecMetaClass.hasattr cls) (SPEC_ATTRS cls)
    && BaseSpecMetaClass.truthy_spec_type (SPEC_TYPE cls) = true
  ↔ is_variant cls.
Proof.
  split; [|apply registers_variant].
  intros [Hattrs Htype]%andb_true_iff. split.
  - intros attr Hin. rewrite forallb_forall in Hattrs.
    specialize (Hattrs attr (proj1 (list_elem_of_In _ _) Hin)).
    unfold BaseSpecMetaClass.hasattr in Hattrs. by apply bool_decide_eq_true in Hattrs.
  - destruct (SPEC_TYPE cls) as [spec_type|]; [|done]. exists spec_type. split; [done|].
    simpl in Htype. apply negb_true_iff in Htype. by apply bool_decide_eq_false in Htype.
Qed.

(** X1: a class that is not a variant (it lacks an attribute named in
    [SPEC_ATTRS], or its [SPEC_TYPE] is [None] or empty) is never
    registered and never refused, whatever the registry holds. *)
Theorem nonvariant_not_registered (S : Type) (cls : pyclass)
    (registry : gmap registry_key pyclass) :
  ¬ is_variant cls →
  BaseSpecMetaClass.__init__ S cls registry
  = (BaseSpecMetaClass.fresh S, registry, Return tt).
Proof.
  intros Hnot. unfold BaseSpecMetaClass.__init__.
  destruct (forallb _ _ && _) eqn:Hguard; [|done].
  by apply registers_variant_iff in Hguard.
Qed.

Lemma nonvariant_not_registered_witness :
  BaseSpecMetaClass.__init__ unit Examples.PlainSpec
    (<[BaseSpecMetaClass.key Examples.PlainSpec := Examples.GceVmSpec]> _SPEC_REGISTRY)
  = (BaseSpecMetaClass.fresh unit,
     <[BaseSpecMetaClass.key Examples.PlainSpec := Examples.GceVmSpec]> _SPEC_REGISTRY,
     Return tt).
Proof.
  apply (nonvariant_not_registered unit Examples.PlainSpec).
  intros [_ (spec_type & Htype & _)]. discriminate.
Defined.

(** X3: registering a class changes no lookup whose key is not the key of the
    class, whether the registration succeeds or not. *)
Theorem register_preserves_other_lookups (S : Type) (cls base_class : pyclass)
    (kwargs : list (string * hashable)) (registry : gmap registry_key pyclass) :
  (__name__ base_class, sorted_items kwargs) ≠ BaseSpecMetaClass.key cls →
  GetSpecClass base_class kwargs (BaseSpecMetaClass.__init__ S cls registry).1.2
  = GetSpecClass base_class kwargs registry.
Proof.
  intros Hne. unfold BaseSpecMetaClass.__init__, GetSpecClass.
  destruct (forallb _ _ && _); [|done].
  case_bool_decide; [done|]. simpl. by rewrite lookup_insert_ne.
Qed.

Lemma register_preserves_other_lookups_witness :
  GetSpecClass Examples.BaseVmSpec [("CLOUD", HStr "GCP")]
    (BaseSpecMetaClass.__init__ unit Examples.AwsVmSpec
       (<[BaseSpecMetaClass.key Examples.GceVmSpec := Examples.GceVmSpec]> _SPEC_REGISTRY)).1.2
  = GetSpecClass Examples.BaseVmSpec [("CLOUD", HStr "GCP")]
      (<[BaseSpecMetaClass.key Examples.GceVmSpec := Examples.GceVmSpec]> _SPEC_REGISTRY).
Proof.
  apply (register_preserves_other_lookups unit Examples.AwsVmSpec Examples.BaseVmSpec).
  vm_compute. discriminate.
Defined.

(** X4: registered variants are told apart by one attribute value: when two
    variants of the type named after [base_class] have the same
    [SPEC_ATTRS] and differ in the value of one of them, both register,
    and looking up the pairs of either returns that one. *)
Theorem variants_dispatch (S : Type) (base_class cls1 cls2 : pyclass) (attr : string)
    (registry : gmap registry_key pyclass) :
  is_variant cls1 → is_variant cls2 →
  SPEC_TYPE cls1 = Some (__name__ base_class) →
  SPEC_TYPE cls2 = Some (__name__ base_class) →
  SPEC_ATTRS cls1 = SPEC_ATTRS cls2 → attr ∈ SPEC_ATTRS cls1 →
  BaseSpecMetaClass.getattr cls1 attr ≠ BaseSpecMetaClass.getattr cls2 attr →
  registry !! BaseSpecMetaClass.key cls1 = None →
  registry !! BaseSpecMetaClass.key cls2 = None →
  let registry1 := (BaseSpecMetaClass.__init__ S cls1 registry).1.2 in
  let registry2 := (BaseSpecMetaClass.__init__ S cls2 registry1).1.2 in
  (BaseSpecMetaClass.__init__ S cls1 registry).2 = Return tt
  ∧ (BaseSpecMetaClass.__init__ S cls2 registry1).2 = Return tt
  ∧ GetSpecClass base_class (attr_items cls1) registry2 = cls1
  ∧ GetSpecClass base_class (attr_items cls2) registry2 = cls2.
Proof.
  intros Hv1 Hv2 Htype1 Htype2 Hattrs Hattr Hvalue Hnone1 Hnone2 registry1 registry2.
  pose proof (key_values_differ cls1 cls2 attr Hattrs Hattr Hvalue) as Hkeys.
  assert (registry1 = <[BaseSpecMetaClass.key cls1 := cls1]> registry) as Hreg1.
  { unfold registry1. by rewrite (register_fresh_key S cls1 registry Hv1 Hnone1). }
  assert (registry2 = <[BaseSpecMetaClass.key cls2 := cls2]> registry1) as Hreg2.
  { unfold registry2. rewrite (register_fresh_key S cls2 registry1 Hv2); [done|].
    rewrite Hreg1. by rewrite lookup_insert_ne. }
  repeat apply conj.
  - by rewrite (register_fresh_key S cls1 registry Hv1 Hnone1).
  - rewrite (register_fresh_key S cls2 registry1 Hv2); [done|].
    rewrite Hreg1. by rewrite lookup_insert_ne.
  - unfold GetSpecClass.
    assert ((__name__ base_class, sorted_items (attr_items cls1))
            = BaseSpecMetaClass.key cls1) as ->.
    { unfold BaseSpecMetaClass.key, attr_items. by rewrite Htype1. }
    rewrite Hreg2, Hreg1. rewrite lookup_insert_ne by done.
    by rewrite lookup_insert_eq.
  - unfold GetSpecClass.
    assert ((__name__ base_class, sorted_items (attr_items cls2))
            = BaseSpecMetaClass.key cls2) as ->.
    { unfold BaseSpecMetaClass.key, attr_items. by rewrite Htype2. }
    rewrite Hreg2. by rewrite lookup_insert_eq.
Qed.

Lemma variants_dispatch_witness :
  GetSpecClass Examples.BaseVmSpec (attr_items Examples.GceVmSpec)
    (BaseSpecMetaClass.__init__ unit Examples.AwsVmSpec
       (BaseSpecMetaClass.__init__ unit Examples.GceVmSpec _SPEC_REGISTRY).1.2).1.2
  = Examples.GceVmSpec
  ∧ GetSpecClass Examples.BaseVmSpec (attr_items Examples.AwsVmSpec)
      (BaseSpecMetaClass.__init__ unit Examples.AwsVmSpec
         (BaseSpecMetaClass.__init__ unit Examples.GceVmSpec _SPEC_REGISTRY).1.2).1.2
    = Examples.AwsVmSpec.
Proof.
  destruct (variants_dispatch unit Examples.BaseVmSpec Examples.GceVmSpec
              Examples.AwsVmSpec "CLOUD" _SPEC_REGISTRY) as (_ & _ & H1 & H2);
    [example_variant | example_variant | reflexivity | reflexivity | reflexivity
    | left | vm_compute; discriminate | reflexivity | reflexivity |].
  by split.
Defined.

Lemma GetSpecClass_registered_witness :
  GetSpecClass Examples.BaseVmSpec
    [("OS_TYPE", HStr "debian"); ("CLOUD", HStr "GCP")]
    (BaseSpecMetaClass.__init__ unit Examples.GceDebianVmSpec _SPEC_REGISTRY).1.2
  = Examples.GceDebianVmSpec.
Proof.
  apply (GetSpecClass_registered unit Examples.BaseVmSpec Examples.GceDebianVmSpec).
  - example_variant.
  - reflexivity.
  - reflexivity.
  - compute_done.
  - apply Permutation_swap.
Defined.

(** Every entry of a registry that class definitions have built is a
    variant filed under its own key. *)
Lemma registered_entries (registry : gmap registry_key pyclass) k cls :
  registered registry → registry !! k = Some cls →
  is_variant cls ∧ k = BaseSpecMetaClass.key cls.
Proof.
  intros Hreg. revert k cls.
  induction Hreg as [|new registry _ IH]; intros k cls Hlookup.
  - unfold _SPEC_REGISTRY in Hlookup. by rewrite lookup_empty in Hlookup.
  - unfold BaseSpecMetaClass.__init__ in Hlookup.
    destruct (forallb _ _ && _) eqn:Hguard; [|by apply IH].
    case_bool_decide; [by apply IH|]. simpl in Hlookup.
    destruct (decide (BaseSpecMetaClass.key new = k)) as [<-|Hne].
    + rewrite lookup_insert_eq in Hlookup. injection Hlookup as <-.
      split; [by apply registers_variant_iff|done].
    + rewrite lookup_insert_ne in Hlookup by done. by apply IH.
Qed.

(** X5: the docstring of [GetSpecClass] promises "the subclass with the
    corresponding attributes": whatever class definitions came before,
    the class returned is the base class itself or a registered variant
    of the type named after the base class whose discriminator
    attributes are exactly the keyword arguments, with the same values. *)
Theorem GetSpecClass_sound (base_class : pyclass) (kwargs : list (string * hashable))
    (registry : gmap registry_key pyclass) :
  registered registry →
  let cls := GetSpecClass base_class kwargs registry in
  cls = base_class
  ∨ (is_variant cls
     ∧ SPEC_TYPE cls = Some (__name__ base_class)
     ∧ ∀ attr value,
         (attr, value) ∈ kwargs
         ↔ attr ∈ SPEC_ATTRS cls ∧ class_attrs cls !! attr = Some value).
Proof.
  intros Hreg cls. unfold cls, GetSpecClass.
  destruct (registry !! (__name__ base_class, sorted_items kwargs)) as [found|] eqn:Hfound;
    [right|by left]. simpl.
  destruct (registered_entries _ _ _ Hreg Hfound) as [Hv Hkey].
  split; [done|]. unfold BaseSpecMetaClass.key in Hkey. injection Hkey as Hname Hitems.
  destruct Hv as [Hattrs (spec_type & Htype & Hne)].
  rewrite Htype in Hname. simpl in Hname. split; [congruence|].
  intros attr value.
  rewrite <-(sorted_items_Permutation kwargs), Hitems, sorted_items_Permutation.
  rewrite list_elem_of_fmap. unfold BaseSpecMetaClass.getattr. split.
  - intros (attr' & Heq & Hin). injection Heq as <- ->. split; [done|].
    by destruct (Hattrs attr Hin) as [v ->].
  - intros [Hin Hvalue]. exists attr. split; [|done]. by rewrite Hvalue.
Qed.

Lemma GetSpecClass_sound_witness :
  GetSpecClass Examples.BaseVmSpec [("CLOUD", HStr "GCP")]
    (BaseSpecMetaClass.__init__ unit Examples.GceVmSpec _SPEC_REGISTRY).1.2
  = Examples.BaseVmSpec
  ∨ (is_variant
       (GetSpecClass Examples.BaseVmSpec [("CLOUD", HStr "GCP")]
          (BaseSpecMetaClass.__init__ unit Examples.GceVmSpec _SPEC_REGISTRY).1.2)
     ∧ SPEC_TYPE
         (GetSpecClass Examples.BaseVmSpec [("CLOUD", HStr "GCP")]
            (BaseSpecMetaClass.__init__ unit Examples.GceVmSpec _SPEC_REGISTRY).1.2)
       = Some (__name__ Examples.BaseVmSpec)
     ∧ ∀ attr value,
         (attr, value) ∈ [("CLOUD", HStr "GCP")]
         ↔ attr ∈ SPEC_ATTRS
                    (GetSpecClass Examples.BaseVmSpec [("CLOUD", HStr "GCP")]
                       (BaseSpecMetaClass.__init__ unit Examples.GceVmSpec
                          _SPEC_REGISTRY).1.2)
           ∧ class_attrs
               (GetSpecClass Examples.BaseVmSpec [("CLOUD", HStr "GCP")]
                  (BaseSpecMetaClass.__init__ unit Examples.GceVmSpec
                     _SPEC_REGISTRY).1.2) !! attr
             = Some value).
Proof.
  apply (GetSpecClass_sound Examples.BaseVmSpec [("CLOUD", HStr "GCP")]).
  apply registered_class, registered_empty.
Defined.

(** X6: class definitions whose keys differ commute: in either order they
    leave the same registry, and each meets the same outcome it would
    meet alone. *)
Theorem register_commutes (S : Type) (cls1 cls2 : pyclass)
    (registry : gmap registry_key pyclass) :
  BaseSpecMetaClass.key cls1 ≠ BaseSpecMetaClass.key cls2 →
  (BaseSpecMetaClass.__init__ S cls2
     (BaseSpecMetaClass.__init__ S cls1 registry).1.2).1.2
  = (BaseSpecMetaClass.__init__ S cls1
       (BaseSpecMetaClass.__init__ S cls2 registry).1.2).1.2
  ∧ (BaseSpecMetaClass.__init__ S cls2
       (BaseSpecMetaClass.__init__ S cls1 registry).1.2).2
    = (BaseSpecMetaClass.__init__ S cls2 registry).2
  ∧ (BaseSpecMetaClass.__init__ S cls1
       (BaseSpecMetaClass.__init__ S cls2 registry).1.2).2
    = (BaseSpecMetaClass.__init__ S cls1 registry).2.
Proof.
  intros Hne. unfold BaseSpecMetaClass.__init__.
  destruct (forallb _ (SPEC_ATTRS cls1) && _), (forallb _ (SPEC_ATTRS cls2) && _);
    simpl; try done.
  - destruct (bool_decide (is_Some (registry !! BaseSpecMetaClass.key cls1))) eqn:H1,
             (bool_decide (is_Some (registry !! BaseSpecMetaClass.key cls2))) eqn:H2;
      simpl; rewrite ?lookup_insert_ne by done; rewrite ?H1, ?H2; simpl; try done.
    split; [|done]. by apply insert_insert_ne.
Qed.

Lemma register_commutes_witness :
  (BaseSpecMetaClass.__init__ unit Examples.AwsVmSpec
     (BaseSpecMetaClass.__init__ unit Examples.GceVmSpec _SPEC_REGISTRY).1.2).1.2
  = (BaseSpecMetaClass.__init__ unit Examples.GceVmSpec
       (BaseSpecMetaClass.__init__ unit Examples.AwsVmSpec _SPEC_REGISTRY).1.2).1.2.
Proof.
  apply (register_commutes unit Examples.GceVmSpec Examples.AwsVmSpec _SPEC_REGISTRY).
  vm_compute. discriminate.
Defined.

(** Two orders of the same items sort to the same list as soon as a name
    has one value, even when names repeat. *)
Lemma sorted_items_unique_functional {A} (items1 items2 : list (string * A)) :
  (∀ k v1 v2, (k, v1) ∈ items1 → (k, v2) ∈ items1 → v1 = v2) →
  items1 ≡ₚ items2 → sorted_items items1 = sorted_items items2.
Proof.
  intros Hfun Hperm.
  apply (StronglySorted_unique_strong item_le).
  - intros [k1 v1] [k2 v2] H1 H2 Hle1 Hle2. unfold item_le in *; simpl in *.
    assert (k1 = k2) as -> by (by apply (anti_symm String.le)).
    f_equal. apply (Hfun k2).
    + by rewrite <-(sorted_items_Permutation items1).
    + by rewrite Hperm, <-(sorted_items_Permutation items2).
  - apply sorted_items_StronglySorted.
  - apply sorted_items_StronglySorted.
  - by rewrite !sorted_items_Permutation.
Qed.

(** X7: the order in which a class lists its [SPEC_ATTRS] does not matter to
    the registry: a variant of the same type with the same attributes in
    another order and the same values has the same key, and is refused
    after the first. *)
Theorem register_attrs_order_irrelevant (S : Type) (cls1 cls2 : pyclass)
    (registry : gmap registry_key pyclass) :
  is_variant cls1 → is_variant cls2 →
  SPEC_TYPE cls1 = SPEC_TYPE cls2 →
  SPEC_ATTRS cls1 ≡ₚ SPEC_ATTRS cls2 →
  (∀ attr, attr ∈ SPEC_ATTRS cls1 → class_attrs cls1 !! attr = class_attrs cls2 !! attr) →
  registry !! BaseSpecMetaClass.key cls1 = None →
  BaseSpecMetaClass.key cls1 = BaseSpecMetaClass.key cls2
  ∧ BaseSpecMetaClass.__init__ S cls2 (BaseSpecMetaClass.__init__ S cls1 registry).1.2
    = (BaseSpecMetaClass.fresh S, <[BaseSpecMetaClass.key cls1 := cls1]> registry,
       Raise (InvalidValue
                (NonUniqueAttrs (default "" (SPEC_TYPE cls2)) (SPEC_ATTRS cls2)))).
Proof.
  intros Hv1 Hv2 Htype Hperm Hvalues Hnone.
  assert (BaseSpecMetaClass.key cls1 = BaseSpecMetaClass.key cls2) as Hkey.
  { unfold BaseSpecMetaClass.key. rewrite Htype. f_equal.
    apply sorted_items_unique_functional.
    - intros k v1 v2 (a1 & Heq1 & _)%list_elem_of_fmap (a2 & Heq2 & _)%list_elem_of_fmap.
      congruence.
    - rewrite <-Hperm. apply reflexive_eq, list_fmap_ext.
      intros i attr Hattr. unfold BaseSpecMetaClass.getattr.
      rewrite Hvalues; [done|]. by eapply list_elem_of_lookup_2. }
  split; [done|].
  rewrite (register_fresh_key S cls1 registry Hv1 Hnone). simpl.
  apply register_known_key; [done|]. rewrite <-Hkey, lookup_insert_eq. by eexists.
Qed.

Lemma register_attrs_order_irrelevant_witness :
  BaseSpecMetaClass.key Examples.GceDebianVmSpec
  = BaseSpecMetaClass.key Examples.DebianGceVmSpec
  ∧ BaseSpecMetaClass.__init__ unit Examples.DebianGceVmSpec
      (BaseSpecMetaClass.__init__ unit Examples.GceDebianVmSpec _SPEC_REGISTRY).1.2
    = (BaseSpecMetaClass.fresh unit,
       <[BaseSpecMetaClass.key Examples.GceDebianVmSpec := Examples.GceDebianVmSpec]>
         _SPEC_REGISTRY,
       Raise (InvalidValue
                (NonUniqueAttrs (default "" (SPEC_TYPE Examples.DebianGceVmSpec))
                   (SPEC_ATTRS Examples.DebianGceVmSpec)))).
Proof.
  apply (register_attrs_order_irrelevant unit Examples.GceDebianVmSpec
           Examples.DebianGceVmSpec _SPEC_REGISTRY).
  - example_variant.
  - example_variant.
  - reflexivity.
  - apply Permutation_swap.
  - reflexivity.
  - reflexivity.
Defined.

(** * Further properties of the pipeline *)

Section more_pipeline.
Context {S : Type}.
Implicit Types (cls : spec_class S) (st : class_state S) (s : S).
Implicit Types (decoders : list (string * ConfigOptionDecoder S)).
Implicit Types (config kwargs self : gmap string pyval).
Implicit Types (values : list (string * pyval)).

Lemma _DecodeAndInit_raises self name flags config before option decoder after
    raw s s1 s2 values e :
  decoded_in_order name flags config before s s1 values →
  config !! option = Some raw →
  Decode decoder raw name flags s1 = (s2, Raise e) →
  BaseSpec._DecodeAndInit self name config (before ++ (option, decoder) :: after)%list
    flags s
  = (s2, Raise e).
Proof.
  intros Hrel Hraw Hdecode. revert self.
  induction Hrel as [|o d decoders raw' value s s1 s1' values Hraw' Hdec _ IH
                     |o d decoders s s1 values Hraw' _ IH]; intros self; simpl.
  - by rewrite Hraw, Hdecode.
  - rewrite Hraw', Hdec. by apply IH.
  - rewrite Hraw'. by apply IH.
Qed.

Lemma decoded_in_order_absent name flags decoders s :
  decoded_in_order name flags ∅ decoders s s
    ((λ item, (item.1, default_value item.2)) <$> decoders).
Proof.
  induction decoders as [|[option decoder] decoders IH]; csimpl; [constructor|].
  by apply (decoded_absent _ _ _ option decoder).
Qed.

End more_pipeline.

(** X8: lazy building cannot be observed: from every state the class can be
    in, a construction returns what it returns on the class as the
    metaclass left it, and leaves the class with its table built. *)
Theorem construct_ignores_table_state (S : Type) (cls : spec_class S) (name : string)
    (flags : option FlagValues) (kwargs : gmap string pyval)
    (st : class_state S) (s : S) :
  reachable cls st →
  BaseSpec.__init__ cls name flags kwargs st s
  = BaseSpec.__init__ cls name flags kwargs (BaseSpecMetaClass.fresh S) s
  ∧ (BaseSpec.__init__ cls name flags kwargs st s).1.1 = built cls.
Proof.
  intros Hst. unfold BaseSpec.__init__.
  rewrite (ensure_built cls st Hst).
  rewrite (ensure_built cls (BaseSpecMetaClass.fresh S) (reachable_fresh cls)).
  split; [done|]. repeat case_bool_decide; try done.
  by destruct (BaseSpec._DecodeAndInit _ _ _ _ _ _) as [s' [attrs|e]].
Qed.

Lemma construct_ignores_table_state_witness :
  BaseSpec.__init__ Examples.DiskSpec "disk" None (<["size" := VInt 10]> ∅)
    (built Examples.DiskSpec) tt
  = BaseSpec.__init__ Examples.DiskSpec "disk" None (<["size" := VInt 10]> ∅)
      (BaseSpecMetaClass.fresh unit) tt
  ∧ (BaseSpec.__init__ Examples.DiskSpec "disk" None (<["size" := VInt 10]> ∅)
       (built Examples.DiskSpec) tt).1.1
    = built Examples.DiskSpec.
Proof.
  apply (construct_ignores_table_state unit Examples.DiskSpec).
  apply reachable_init, reachable_fresh.
Defined.

(** X9: decoding stops at the first option, in the order of the table, whose
    decoder raises: that exception leaves the constructor, the decoders
    of the later options are not run, and the decoders' state is the one
    the failing decoder left. *)
Theorem construct_first_decoder_error (S : Type) (cls : spec_class S) (name : string)
    (flags : option FlagValues) (kwargs : gmap string pyval)
    (st : class_state S) (s s1 s2 : S)
    (before after : list (string * ConfigOptionDecoder S))
    (option : string) (decoder : ConfigOptionDecoder S) (raw : pyval)
    (values : list (string * pyval)) (e : error) :
  reachable cls st →
  let config := BaseSpec.apply_flags cls flags kwargs in
  (∀ o, o ∈ _required_options (built cls) → o ∈ dom config) →
  (∀ o, o ∈ dom config → o ∈ (_decoders (built cls)).*1) →
  _decoders (built cls) = (before ++ (option, decoder) :: after)%list →
  decoded_in_order name flags config before s s1 values →
  config !! option = Some raw →
  Decode decoder raw name flags s1 = (s2, Raise e) →
  BaseSpec.__init__ cls name flags kwargs st s = (built cls, s2, Raise e).
Proof.
  intros Hst config Hrequired Hknown Htable Hrel Hraw Hdecode.
  unfold BaseSpec.__init__. rewrite (ensure_built cls st Hst). fold config.
  rewrite bool_decide_eq_false_2
    by (intros Hne; by apply Hne, subseteq_empty_difference_L).
  rewrite bool_decide_eq_false_2.
  - rewrite Htable.
    by rewrite (_DecodeAndInit_raises _ _ _ _ _ _ _ _ _ _ _ _ _ _ Hrel Hraw Hdecode).
  - intros Hne. apply Hne, subseteq_empty_difference_L.
    intros o Ho. unfold odict_keys. rewrite elem_of_list_to_set. by apply Hknown.
Qed.

Lemma construct_first_decoder_error_witness :
  BaseSpec.__init__ Examples.DiskSpec "disk" None
    (<["tier" := VInt 2]> (<["size" := VInt 10]> ∅)) (BaseSpecMetaClass.fresh unit) tt
  = (built Examples.DiskSpec, tt,
     Raise (InvalidValue (WrongType "disk.tier" (VInt 2) [T_str]))).
Proof.
  apply (construct_first_decoder_error unit Examples.DiskSpec "disk" None
           (<["tier" := VInt 2]> (<["size" := VInt 10]> ∅))
           (BaseSpecMetaClass.fresh unit) tt tt tt
           [("size", option_decoders.TypeVerifier [T_int] None "size")] []
           "tier" (option_decoders.TypeVerifier [T_str] (Some (VStr "standard")) "tier")
           (VInt 2) [("size", VInt 10)]).
  - constructor.
  - intros o Hreq.
    apply elem_of_built_required in Hreq as (c & Hc & Hrequired).
    destruct (decide (o = "size")) as [->|Hne]; [compute_done|].
    exfalso. unfold Examples.DiskSpec, BaseSpec._GetOptionDecoderConstructions in Hc.
    simpl in Hc. destruct (decide (o = "tier")) as [->|Hne'].
    + rewrite lookup_insert_eq in Hc. injection Hc as <-. discriminate.
    + rewrite !lookup_insert_ne in Hc by done. by rewrite lookup_empty in Hc.
  - intros o Hin. rewrite built_DiskSpec.
    unfold BaseSpec.apply_flags in Hin. simpl in Hin.
    apply elem_of_dom in Hin as [v Hv].
    destruct (decide (o = "tier")) as [->|Hne]; [right; left|].
    destruct (decide (o = "size")) as [->|Hne']; [left|].
    rewrite !lookup_insert_ne, lookup_empty in Hv by done. discriminate.
  - apply built_DiskSpec.
  - eapply decoded_present; [reflexivity|reflexivity|constructor].
  - reflexivity.
  - reflexivity.
Defined.

(** X10: a class without required options can be constructed from the empty
    option map: every declared option holds its decoder's default, no
    decoder is run, and the decoders' state is untouched. *)
Theorem construct_defaults (S : Type) (cls : spec_class S) (name : string)
    (flags : option FlagValues) (kwargs : gmap string pyval)
    (st : class_state S) (s : S) :
  reachable cls st →
  _required_options (built cls) = ∅ →
  BaseSpec.apply_flags cls flags kwargs = ∅ →
  ∃ attrs : gmap string pyval,
    BaseSpec.__init__ cls name flags kwargs st s
    = (built cls, s, Return (VSpec (spec_name cls) attrs))
    ∧ dom attrs = dom (cls_GetOptionDecoderConstructions cls)
    ∧ ∀ option decoder,
        (option, decoder) ∈ _decoders (built cls) →
        attrs !! option = Some (default_value decoder).
Proof.
  intros Hst Hrequired Hconfig.
  set (values := (λ item : string * ConfigOptionDecoder S,
                    (item.1, default_value item.2)) <$> _decoders (built cls)).
  assert (values.*1 = (_decoders (built cls)).*1) as Hfst.
  { unfold values. rewrite <-list_fmap_compose. by apply list_fmap_ext. }
  exists (list_to_map values). split; [|split].
  - apply __init___decoded; [done| | |]; rewrite Hconfig.
    + rewrite Hrequired. apply empty_subseteq.
    + rewrite dom_empty_L. apply empty_subseteq.
    + apply decoded_in_order_absent.
  - rewrite dom_list_to_map_L, Hfst. apply odict_keys_built.
  - intros option decoder Hin. apply elem_of_list_to_map_1.
    + rewrite Hfst. apply NoDup_built_keys.
    + unfold values. apply list_elem_of_fmap. by exists (option, decoder).
Qed.

Lemma construct_defaults_witness :
  ∃ attrs : gmap string pyval,
    BaseSpec.__init__ Examples.TierSpec "disk" None ∅ (BaseSpecMetaClass.fresh unit) tt
    = (built Examples.TierSpec, tt, Return (VSpec (spec_name Examples.TierSpec) attrs))
    ∧ dom attrs = dom (cls_GetOptionDecoderConstructions Examples.TierSpec)
    ∧ ∀ option decoder,
        (option, decoder) ∈ _decoders (built Examples.TierSpec) →
        attrs !! option = Some (default_value decoder).
Proof.
  apply (construct_defaults unit Examples.TierSpec "disk" None ∅).
  - constructor.
  - vm_compute. reflexivity.
  - reflexivity.
Defined.

(** X11: a class that declares no options, as [BaseSpec] itself, accepts the
    empty option map and nothing else: every key of a non-empty map is
    reported as unrecognized; and its table is never anything but
    empty. *)
Theorem construct_without_options (S : Type) (cls : spec_class S) (name : string)
    (flags : option FlagValues) (kwargs : gmap string pyval)
    (st : class_state S) (s : S) :
  reachable cls st →
  cls_GetOptionDecoderConstructions cls = ∅ →
  let config := BaseSpec.apply_flags cls flags kwargs in
  st = BaseSpecMetaClass.fresh S
  ∧ (config = ∅ →
     BaseSpec.__init__ cls name flags kwargs st s
     = (BaseSpecMetaClass.fresh S, s, Return (VSpec (spec_name cls) ∅)))
  ∧ (config ≠ ∅ →
     ∃ names,
       BaseSpec.__init__ cls name flags kwargs st s
       = (BaseSpecMetaClass.fresh S, s,
          Raise (UnrecognizedOption
                   ("Unrecognized options were found in " +:+ name +:+ ": "
                      +:+ String.concat ", " names +:+ ".")))
       ∧ StronglySorted String.le names
       ∧ NoDup names
       ∧ ∀ option, option ∈ names ↔ option ∈ dom config).
Proof.
  intros Hst Hnone config.
  assert (built cls = BaseSpecMetaClass.fresh S) as Hbuilt.
  { unfold built, BaseSpec._InitDecoders. simpl.
    by rewrite Hnone, map_to_list_empty. }
  assert (st = BaseSpecMetaClass.fresh S) as ->.
  { apply reachable_cases in Hst as [->| ->]; done. }
  split; [done|split].
  - intros Hempty.
    rewrite (__init___decoded cls name flags kwargs _ s s []); fold config.
    + by rewrite Hbuilt.
    + constructor.
    + rewrite Hbuilt. apply empty_subseteq.
    + rewrite Hempty, dom_empty_L. apply empty_subseteq.
    + rewrite Hbuilt. constructor.
  - intros Hne.
    exists (sorted (elements (dom config ∖ odict_keys (_decoders (built cls))))).
    destruct (sorted_elements (dom config ∖ odict_keys (_decoders (built cls))))
      as (Hsorted & Hnd & Hnames).
    assert (dom config ∖ odict_keys (_decoders (built cls)) = dom config) as Hall.
    { rewrite odict_keys_built, Hnone, dom_empty_L. apply difference_empty_L. }
    split; [|split; [done|split; [done|]]].
    + rewrite <-Hbuilt at 2. apply __init___unrecognized; [constructor| |]; fold config.
      * rewrite Hbuilt. apply subseteq_empty_difference_L, empty_subseteq.
      * rewrite Hall. by intros ?%dom_empty_inv_L.
    + intros option. by rewrite Hnames, Hall.
Qed.

Lemma construct_without_options_witness :
  BaseSpec.__init__ (BaseSpec.class unit) "spec" None ∅ (BaseSpecMetaClass.fresh unit) tt
  = (BaseSpecMetaClass.fresh unit, tt, Return (VSpec "BaseSpec" ∅))
  ∧ ∃ names,
      BaseSpec.__init__ (BaseSpec.class unit) "spec" None (<["size" := VInt 10]> ∅)
        (BaseSpecMetaClass.fresh unit) tt
      = (BaseSpecMetaClass.fresh unit, tt,
         Raise (UnrecognizedOption
                  ("Unrecognized options were found in " +:+ "spec" +:+ ": "
                     +:+ String.concat ", " names +:+ ".")))
      ∧ StronglySorted String.le names
      ∧ NoDup names
      ∧ ∀ option,
          option ∈ names
          ↔ option ∈ dom (BaseSpec.apply_flags (BaseSpec.class unit) None
                             (<["size" := VInt 10]> ∅)).
Proof.
  split.
  - destruct (construct_without_options unit (BaseSpec.class unit) "spec" None ∅
                (BaseSpecMetaClass.fresh unit) tt) as (_ & Hempty & _);
      [constructor|reflexivity|]. by apply Hempty.
  - destruct (construct_without_options unit (BaseSpec.class unit) "spec" None
                (<["size" := VInt 10]> ∅) (BaseSpecMetaClass.fresh unit) tt)
      as (_ & _ & Hmore); [constructor|reflexivity|].
    apply Hmore. unfold BaseSpec.apply_flags. simpl.
    intros Hempty. apply (f_equal (λ m : gmap string pyval, m !! "size")) in Hempty.
    by rewrite lookup_insert_eq, lookup_empty in Hempty.
Defined.

(** X12: [_DecodeAndInit] only sets the attributes its decoders name: when it
    returns, every option of [decoders] is an attribute of the object,
    and every other attribute the object had is as it was. *)
Theorem DecodeAndInit_keeps_other_attributes (S : Type) (self attrs : gmap string pyval)
    (name : string) (flags : option FlagValues) (config : gmap string pyval)
    (decoders : list (string * ConfigOptionDecoder S)) (s s' : S) :
  BaseSpec._DecodeAndInit self name config decoders flags s = (s', Return attrs) →
  (∀ option, option ∈ decoders.*1 → is_Some (attrs !! option))
  ∧ (∀ option, option ∉ decoders.*1 → attrs !! option = self !! option).
Proof.
  revert self s. induction decoders as [|[o d] decoders IH]; intros self s Hrun;
    simpl in Hrun.
  - injection Hrun as _ <-. split; [|done]. by intros option ?%elem_of_nil.
  - assert (∃ value s1,
              BaseSpec._DecodeAndInit (<[o := value]> self) name config decoders flags s1
              = (s', Return attrs)) as (value & s1 & Hrest).
    { revert Hrun. destruct (config !! o) as [raw|]; [|by eexists _, _].
      destruct (Decode d raw name flags s) as [s1 [value|e]]; [by eexists _, _|done]. }
    destruct (IH _ _ Hrest) as [Hset Hkept]. split.
    + intros k [->|Hin]%elem_of_cons; [|by apply Hset].
      destruct (decide (o ∈ decoders.*1)) as [Hin|Hout]; [by apply Hset|].
      simpl. rewrite (Hkept _ Hout), lookup_insert_eq. by eexists.
    + intros option [Hne Hout]%not_elem_of_cons.
      by rewrite (Hkept _ Hout), lookup_insert_ne.
Qed.

Lemma DecodeAndInit_keeps_other_attributes_witness :
  (∀ option,
     option ∈ [("tier", option_decoders.TypeVerifier (S:=unit) [T_str]
                          (Some (VStr "standard")) "tier")].*1 →
     is_Some ((<["tier" := VStr "standard"]> (<["zone" := VStr "a"]> ∅)
               : gmap string pyval) !! option))
  ∧ (∀ option,
       option ∉ [("tier", option_decoders.TypeVerifier (S:=unit) [T_str]
                            (Some (VStr "standard")) "tier")].*1 →
       (<["tier" := VStr "standard"]> (<["zone" := VStr "a"]> ∅)
        : gmap string pyval) !! option
       = (<["zone" := VStr "a"]> ∅ : gmap string pyval) !! option).
Proof.
  apply (DecodeAndInit_keeps_other_attributes unit (<["zone" := VStr "a"]> ∅)
           (<["tier" := VStr "standard"]> (<["zone" := VStr "a"]> ∅))
           "disk" None ∅
           [("tier", option_decoders.TypeVerifier [T_str] (Some (VStr "standard")) "tier")]
           tt tt).
  reflexivity.
Defined.

(** X13: the nested decoder reports a dictionary with a key that is not a
    valid cloud under the derived component name: [UnrecognizedOption]
    names the full name of the option and exactly the keys that are not
    valid clouds, sorted.  [PerCloudConfigSpec] has no required option,
    so [MissingOption] cannot come first. *)
Theorem PerCloudConfigDecoder_unknown_cloud (VALID_CLOUDS : list string)
    (default : option pyval) (flags : option FlagValues) (option name : string)
    (input_dict : gmap string pyval) (st : class_state unit) :
  let decoder := PerCloudConfigDecoder.__init__ VALID_CLOUDS default option in
  let cls := PerCloudConfigSpec.class VALID_CLOUDS unit in
  reachable cls st →
  PerCloudConfigDecoder.bound_twice input_dict = false →
  (∃ key, key ∈ dom input_dict ∧ key ∉ VALID_CLOUDS) →
  ∃ names,
    Decode decoder (VDict input_dict) name flags st
    = (built cls,
       Raise (UnrecognizedOption
                ("Unrecognized options were found in " +:+ (name +:+ "." +:+ option)
                   +:+ ": " +:+ String.concat ", " names +:+ ".")))
    ∧ StronglySorted String.le names
    ∧ NoDup names
    ∧ ∀ key, key ∈ names ↔ key ∈ dom input_dict ∧ key ∉ VALID_CLOUDS.
Proof.
  intros decoder cls Hst Hbound (key & Hkey & Hunknown).
  exists (sorted (elements (dom input_dict ∖ odict_keys (_decoders (built cls))))).
  destruct (sorted_elements (dom input_dict ∖ odict_keys (_decoders (built cls))))
    as (Hsorted & Hnd & Hnames).
  assert (∀ k, k ∈ odict_keys (_decoders (built cls)) ↔ k ∈ VALID_CLOUDS) as Hkeys.
  { intros k. unfold odict_keys. rewrite elem_of_list_to_set.
    apply PerCloudConfigSpec_keys. }
  split; [|split; [done|split; [done|]]].
  - unfold decoder, cls. rewrite PerCloudConfigDecoder_Decode_dict, Hbound.
    rewrite __init___unrecognized; rewrite ?PerCloudConfigSpec_apply_flags; [done..| |].
    + rewrite PerCloudConfigSpec_required.
      apply subseteq_empty_difference_L, empty_subseteq.
    + apply (difference_nonempty _ _ key); [done|].
      intros Hin. by apply Hunknown, Hkeys.
  - intros k. by rewrite Hnames, elem_of_difference, Hkeys.
Qed.

Lemma PerCloudConfigDecoder_unknown_cloud_witness :
  ∃ names,
    Decode Examples.vm_spec (VDict (<["bogus" := VDict ∅]> ∅)) "group" None
      (BaseSpecMetaClass.fresh unit)
    = (built (PerCloudConfigSpec.class Examples.VALID_CLOUDS unit),
       Raise (UnrecognizedOption
                ("Unrecognized options were found in " +:+ ("group" +:+ "." +:+ "vm_spec")
                   +:+ ": " +:+ String.concat ", " names +:+ ".")))
    ∧ StronglySorted String.le names
    ∧ NoDup names
    ∧ ∀ key,
        key ∈ names
        ↔ key ∈ dom (<["bogus" := VDict ∅]> ∅ : gmap string pyval)
          ∧ key ∉ Examples.VALID_CLOUDS.
Proof.
  apply (PerCloudConfigDecoder_unknown_cloud Examples.VALID_CLOUDS (Some VNone) None
           "vm_spec" "group" (<["bogus" := VDict ∅]> ∅) (BaseSpecMetaClass.fresh unit)).
  - constructor.
  - vm_compute. reflexivity.
  - exists "bogus". split; compute_done.
Defined.
